(** * Inventory management: a shallow embedding of [app.py]

    The development follows the source file top to bottom: the exception
    classes, the [Product] hierarchy with its three subclasses, and the
    [Inventory] class with its dictionary of products and its JSON
    persistence.  Methods that mutate [self] are written in state-passing
    style and return the outcome of the call together with the object as
    the call leaves it, so that the state left behind by a raised
    exception can be talked about.

    Conventions.
    - Python [int] is [Z].
    - The price is a Python number ([float] from the menu, any JSON number
      from a file).  The code only stores it, writes it out, multiplies it
      by the stock and sums the products, so the number type is a
      parameter ([Numeric]) and every statement holds for each instance.
    - A Python [str] is a [string]; a character is read as the code point
      of the same number (0 to 255), on which the digit class of the date
      format is exactly ['0'..'9'].
    - The dictionary [Inventory._products] is an association list in
      insertion order, the order Python iterates it in.
    - [datetime.now().date()] is an argument [today] of the methods that
      read the clock.
    - A file holds the value that [json.dump] wrote and [json.load] reads
      back: a list of records, each key absent or holding a value of the
      type the persisted format gives it. *)

From Stdlib Require Import ZArith List String Ascii Bool Lia.
Import ListNotations.

Local Open Scope string_scope.
Local Open Scope list_scope.
Local Open Scope Z_scope.

Set Implicit Arguments.

(** ** Custom exceptions *)

(** The two messages [InvalidProductDataError] is raised with. *)
Inductive invalid_reason : Type :=
| UnknownType (p_type : string)      (* f"Unknown type: {p_type}" *)
| MissingFields.                     (* "Missing fields in product data" *)

(** The exceptions the modelled code can raise.  The first three are the
    subclasses of [InventoryError]; the others are the builtin exceptions
    that escape from dictionary lookups, date parsing and [open]. *)
Inductive exn : Type :=
| DuplicateProductError                          (* "Product ID already exists." *)
| OutOfStockError (in_stock : Z)                 (* f"Only {in_stock} items in stock." *)
| InvalidProductDataError (why : invalid_reason)
| KeyError (key : string)
| ValueError
| FileNotFoundError.

(** [isinstance(e, InventoryError)]. *)
Definition is_InventoryError (e : exn) : bool :=
  match e with
  | DuplicateProductError | OutOfStockError _ | InvalidProductDataError _ => true
  | KeyError _ | ValueError | FileNotFoundError => false
  end.

Definition is_InvalidProductDataError (e : exn) : bool :=
  match e with InvalidProductDataError _ => true | _ => false end.



(** The outcome of a call: a returned value or a raised exception. *)
Inductive outcome (A : Type) : Type :=
| Return (a : A)
| Raise (e : exn).

Arguments Return {A} a.
Arguments Raise {A} e.

Definition bind {A B : Type} (m : outcome A) (k : A -> outcome B) : outcome B :=
  match m with
  | Return a => k a
  | Raise e => Raise e
  end.

Notation "x <- m ;; k" := (bind m (fun x => k))
  (at level 61, m at next level, right associativity).

(** ** Numbers *)

(** What the code asks of a price: [price * quantity] with an [int]
    quantity, the [+] of [sum] and its start value, the [int] 0. *)
Class Numeric (num : Type) : Type := {
  num_mul_int : num -> Z -> num;
  num_add : num -> num -> num;
  num_of_int : Z -> num
}.

#[global] Instance Numeric_Z : Numeric Z := {
  num_mul_int := Z.mul;
  num_add := Z.add;
  num_of_int := fun z => z
}.

(** ** Dates: [datetime.date], [isoformat] and [strptime] with ["%Y-%m-%d"] *)

Record date : Type := mkdate { year : Z; month : Z; day : Z }.

Definition is_leap (y : Z) : bool :=
  (y mod 4 =? 0) && (negb (y mod 100 =? 0) || (y mod 400 =? 0)).

Definition days_in_month (y m : Z) : Z :=
  if m =? 2 then (if is_leap y then 29 else 28)
  else if (m =? 4) || (m =? 6) || (m =? 9) || (m =? 11) then 30
  else 31.

(** The range check of the [date] constructor. *)
Definition valid_date (d : date) : bool :=
  (1 <=? year d) && (year d <=? 9999) &&
  (1 <=? month d) && (month d <=? 12) &&
  (1 <=? day d) && (day d <=? days_in_month (year d) (month d)).

(** [date(y, m, d)]: a [ValueError] outside the range. *)
Definition date_new (y m d : Z) : outcome date :=
  if valid_date (mkdate y m d) then Return (mkdate y m d) else Raise ValueError.

(** Dates compare as the tuples [(year, month, day)]. *)
Definition date_lt (a b : date) : bool :=
  (year a <? year b) ||
  ((year a =? year b) &&
   ((month a <? month b) || ((month a =? month b) && (day a <? day b)))).

Definition date_gt (a b : date) : bool := date_lt b a.

Definition date_le (a b : date) : bool := negb (date_lt b a).

(** The [len] integers from [lo] on, in increasing order. *)
Fixpoint Z_range (lo : Z) (len : nat) : list Z :=
  match len with
  | O => []
  | S len' => lo :: Z_range (lo + 1) len'
  end.

(** The decimal digit [n] (0 to 9) as a character. *)
Definition digit_char (n : Z) : ascii := ascii_of_nat (48 + Z.to_nat n).

Definition is_digit (c : ascii) : bool :=
  let n := Z.of_nat (nat_of_ascii c) in (48 <=? n) && (n <=? 57).

Definition digit_val (c : ascii) : Z := Z.of_nat (nat_of_ascii c) - 48.

(** [c] is a digit between [lo] and [hi]: the class [[lo-hi]]. *)
Definition digit_in (lo hi : Z) (c : ascii) : bool :=
  is_digit c && (lo <=? digit_val c) && (digit_val c <=? hi).

(** ["%04d" % y] and ["%02d" % n], on the ranges a [date] keeps its
    fields in (0 to 9999 and 0 to 99). *)
Definition fmt_04d (y : Z) (rest : string) : string :=
  String (digit_char (y / 1000))
    (String (digit_char (y / 100 mod 10))
      (String (digit_char (y / 10 mod 10))
        (String (digit_char (y mod 10)) rest))).

Definition fmt_02d (n : Z) (rest : string) : string :=
  String (digit_char (n / 10)) (String (digit_char (n mod 10)) rest).

(** [date.isoformat()]: ["%04d-%02d-%02d"]. *)
Definition isoformat (d : date) : string :=
  fmt_04d (year d) (String "-" (fmt_02d (month d) (String "-" (fmt_02d (day d) "")))).

(** The directives of the format as [_strptime] compiles them, each
    returning the number read and the rest of the string.  The
    alternatives of a group are tried in the order they are written.

    [%Y] is [\d\d\d\d]. *)
Definition match_Y (s : string) : option (Z * string) :=
  match s with
  | String a (String b (String c (String d rest))) =>
      if is_digit a && is_digit b && is_digit c && is_digit d
      then Some (1000 * digit_val a + 100 * digit_val b + 10 * digit_val c + digit_val d, rest)
      else None
  | _ => None
  end.

(** [%m] is [1[0-2]|0[1-9]|[1-9]]. *)
Definition match_m (s : string) : option (Z * string) :=
  match s with
  | String a rest =>
      let two :=
        match rest with
        | String b rest' =>
            if (digit_in 1 1 a && digit_in 0 2 b) || (digit_in 0 0 a && digit_in 1 9 b)
            then Some (10 * digit_val a + digit_val b, rest')
            else None
        | EmptyString => None
        end in
      match two with
      | Some r => Some r
      | None => if digit_in 1 9 a then Some (digit_val a, rest) else None
      end
  | EmptyString => None
  end.

(** [%d] is [3[0-1]|[1-2]\d|0[1-9]|[1-9]| [1-9]]. *)
Definition match_d (s : string) : option (Z * string) :=
  match s with
  | String a rest =>
      let two :=
        match rest with
        | String b rest' =>
            if (digit_in 3 3 a && digit_in 0 1 b) || (digit_in 1 2 a && is_digit b)
               || (digit_in 0 0 a && digit_in 1 9 b)
            then Some (10 * digit_val a + digit_val b, rest')
            else None
        | EmptyString => None
        end in
      match two with
      | Some r => Some r
      | None =>
          if digit_in 1 9 a then Some (digit_val a, rest)
          else match rest with
               | String b rest' =>
                   if Ascii.eqb a " " && digit_in 1 9 b then Some (digit_val b, rest') else None
               | EmptyString => None
               end
      end
  | EmptyString => None
  end.

(** [datetime.strptime(s, "%Y-%m-%d").date()].  The string must match
    the compiled format from its start ("does not match format"), nothing
    may be left over ("unconverted data remains"), and the numbers must
    make a date; each failure is a [ValueError]. *)
Definition strptime (s : string) : outcome date :=
  match match_Y s with
  | Some (y, String "-" s1) =>
      match match_m s1 with
      | Some (m, String "-" s2) =>
          match match_d s2 with
          | Some (d, EmptyString) => date_new y m d
          | _ => Raise ValueError
          end
      | _ => Raise ValueError
      end
  | _ => Raise ValueError
  end.

(** ** Calls that change an object *)

(** A method call on an object of type [S]: the outcome and the object
    as the call leaves it. *)
Definition action (S A : Type) : Type := S -> outcome A * S.

Definition ret {S A : Type} (a : A) : action S A := fun s => (Return a, s).

Definition raise {S A : Type} (e : exn) : action S A := fun s => (Raise e, s).

(** A computation that does not touch the object. *)
Definition lift {S A : Type} (m : outcome A) : action S A := fun s => (m, s).

Definition abind {S A B : Type} (m : action S A) (k : A -> action S B) : action S B :=
  fun s =>
    match m s with
    | (Return a, s') => k a s'
    | (Raise e, s') => (Raise e, s')
    end.

Notation "x <~ m ;; k" := (abind m (fun x => k))
  (at level 61, m at next level, right associativity).

(** [try: body  except KeyError: raise handler]. *)
Definition try_except_KeyError {S A : Type} (body : action S A) (handler : exn) : action S A :=
  fun s =>
    match body s with
    | (Raise (KeyError _), s') => (Raise handler, s')
    | other => other
    end.

(** [for x in xs: body(x)]: the loop stops at the first exception. *)
Fixpoint for_each {S X : Type} (xs : list X) (body : X -> action S unit) : action S unit :=
  match xs with
  | [] => ret tt
  | x :: rest => _ <~ body x ;; for_each rest body
  end.

(** ** Strings: [str.lower] and the substring test [in] *)

(** [str.lower] on one character.  On the code points 0 to 255 the
    upper-case letters are ['A'..'Z'] and the Latin-1 letters 192 to 222
    without the multiplication sign 215; each has its lower-case letter
    32 places further. *)
Definition lower_char (c : ascii) : ascii :=
  let n := nat_of_ascii c in
  if ((65 <=? n) && (n <=? 90) || (192 <=? n) && (n <=? 214) || (216 <=? n) && (n <=? 222))%nat
  then ascii_of_nat (n + 32)
  else c.

(** [s.lower()] *)
Fixpoint lower (s : string) : string :=
  match s with
  | EmptyString => EmptyString
  | String c s' => String (lower_char c) (lower s')
  end.

(** [needle in hay]: [needle] starts at some position of [hay]. *)
Fixpoint str_in (needle hay : string) : bool :=
  String.prefix needle hay
  || match hay with
     | EmptyString => false
     | String _ hay' => str_in needle hay'
     end.

(** ** Dictionaries with [str] keys, in insertion order *)

Section Dict.
Variable V : Type.

Definition dict : Type := list (string * V).

(** [d.get(k)] *)
Fixpoint dict_get (k : string) (d : dict) : option V :=
  match d with
  | [] => None
  | (k', v) :: rest => if (k' =? k)%string then Some v else dict_get k rest
  end.

(** [k in d] *)
Definition dict_contains (k : string) (d : dict) : bool :=
  match dict_get k d with Some _ => true | None => false end.

(** [d[k] = v]: a present key keeps its place, a new key goes last. *)
Fixpoint dict_set (k : string) (v : V) (d : dict) : dict :=
  match d with
  | [] => [(k, v)]
  | (k', v') :: rest =>
      if (k' =? k)%string then (k', v) :: rest else (k', v') :: dict_set k v rest
  end.

(** [del d[k]], for a key that is present. *)
Fixpoint dict_del (k : string) (d : dict) : dict :=
  match d with
  | [] => []
  | (k', v') :: rest => if (k' =? k)%string then rest else (k', v') :: dict_del k rest
  end.

Definition dict_keys (d : dict) : list string := map fst d.

Definition dict_values (d : dict) : list V := map snd d.

(** No key occurs twice: what makes an association list a dictionary. *)
Fixpoint unique_keys (d : dict) : bool :=
  match d with
  | [] => true
  | (k, _) :: rest => negb (dict_contains k rest) && unique_keys rest
  end.
End Dict.

(** ** The product classes *)

Section Model.
Variable num : Type.
Context {NumOps : Numeric num}.

(** The attributes set by [Product.__init__]. *)
Record Base : Type := mkBase {
  _product_id : string;
  _name : string;
  _price : num;
  _quantity_in_stock : Z
}.

(** An object of one of the three concrete subclasses. *)
Inductive Product : Type :=
| Electronics (base : Base) (warranty_years : Z) (brand : string)
| Grocery (base : Base) (expiry_date : date)
| Clothing (base : Base) (size : string) (material : string).

Definition base_of (p : Product) : Base :=
  match p with
  | Electronics b _ _ | Grocery b _ | Clothing b _ _ => b
  end.

Definition product_id (p : Product) : string := _product_id (base_of p).
Definition name (p : Product) : string := _name (base_of p).
Definition price (p : Product) : num := _price (base_of p).
Definition quantity_in_stock (p : Product) : Z := _quantity_in_stock (base_of p).

(** [self._quantity_in_stock = q] *)
Definition set_quantity_in_stock (q : Z) (p : Product) : Product :=
  let upd b := mkBase (_product_id b) (_name b) (_price b) q in
  match p with
  | Electronics b w br => Electronics (upd b) w br
  | Grocery b e => Grocery (upd b) e
  | Clothing b s m => Clothing (upd b) s m
  end.

(** [self.__class__.__name__] *)
Definition class_name (p : Product) : string :=
  match p with
  | Electronics _ _ _ => "Electronics"
  | Grocery _ _ => "Grocery"
  | Clothing _ _ _ => "Clothing"
  end.

(** [isinstance(p, Grocery)] *)
Definition isinstance_Grocery (p : Product) : bool :=
  match p with Grocery _ _ => true | _ => false end.

(** [isinstance(p, Electronics)] and [isinstance(p, Clothing)] *)
Definition isinstance_Electronics (p : Product) : bool :=
  match p with Electronics _ _ _ => true | _ => false end.

Definition isinstance_Clothing (p : Product) : bool :=
  match p with Clothing _ _ _ => true | _ => false end.

(** [Product.restock] *)
Definition restock (amount : Z) : action Product unit :=
  fun self => (Return tt, set_quantity_in_stock (quantity_in_stock self + amount) self).

(** [Product.sell] *)
Definition sell (quantity : Z) : action Product unit :=
  fun self =>
    if quantity >? quantity_in_stock self
    then (Raise (OutOfStockError (quantity_in_stock self)), self)
    else (Return tt, set_quantity_in_stock (quantity_in_stock self - quantity) self).

(** [Product.get_total_value] *)
Definition get_total_value (self : Product) : num :=
  num_mul_int (price self) (quantity_in_stock self).

(** [Grocery.is_expired], for the expiry date of a grocery. *)
Definition is_expired (today : date) (expiry_date : date) : bool :=
  date_gt today expiry_date.

(** [isinstance(p, Grocery) and p.is_expired()] *)
Definition expired_grocery (today : date) (p : Product) : bool :=
  match p with
  | Grocery _ e => is_expired today e
  | _ => false
  end.

(** The three constructors.  Only [Grocery.__init__] can fail: it
    parses its date. *)
Definition new_Electronics (product_id name : string) (price : num) (quantity_in_stock : Z)
    (warranty_years : Z) (brand : string) : outcome Product :=
  Return (Electronics (mkBase product_id name price quantity_in_stock) warranty_years brand).

Definition new_Grocery (product_id name : string) (price : num) (quantity_in_stock : Z)
    (expiry_date : string) : outcome Product :=
  d <- strptime expiry_date ;;
  Return (Grocery (mkBase product_id name price quantity_in_stock) d).

Definition new_Clothing (product_id name : string) (price : num) (quantity_in_stock : Z)
    (size material : string) : outcome Product :=
  Return (Clothing (mkBase product_id name price quantity_in_stock) size material).

(** ** Persisted records *)

(** One object of the JSON array: every key of the persisted format,
    absent ([None]) or present with a value of its type. *)
Record record : Type := mkRecord {
  r_type : option string;
  r_product_id : option string;
  r_name : option string;
  r_price : option num;
  r_quantity_in_stock : option Z;
  r_warranty_years : option Z;
  r_brand : option string;
  r_expiry_date : option string;
  r_size : option string;
  r_material : option string
}.

(** [Product.to_dict]: the keys every product writes. *)
Definition Product_to_dict (self : Product) : record :=
  mkRecord (Some (class_name self)) (Some (product_id self)) (Some (name self))
           (Some (price self)) (Some (quantity_in_stock self))
           None None None None None.

(** [base.update({"warranty_years": w, "brand": b})] and its two siblings. *)
Definition update_Electronics (w : Z) (b : string) (base : record) : record :=
  mkRecord (r_type base) (r_product_id base) (r_name base) (r_price base)
           (r_quantity_in_stock base)
           (Some w) (Some b) (r_expiry_date base) (r_size base) (r_material base).

Definition update_Grocery (e : string) (base : record) : record :=
  mkRecord (r_type base) (r_product_id base) (r_name base) (r_price base)
           (r_quantity_in_stock base)
           (r_warranty_years base) (r_brand base) (Some e) (r_size base) (r_material base).

Definition update_Clothing (s m : string) (base : record) : record :=
  mkRecord (r_type base) (r_product_id base) (r_name base) (r_price base)
           (r_quantity_in_stock base)
           (r_warranty_years base) (r_brand base) (r_expiry_date base) (Some s) (Some m).

(** [to_dict] as each subclass overrides it. *)
Definition to_dict (self : Product) : record :=
  let base := Product_to_dict self in
  match self with
  | Electronics _ w b => update_Electronics w b base
  | Grocery _ e => update_Grocery (isoformat e) base
  | Clothing _ s m => update_Clothing s m base
  end.

(** [item[key]]: a [KeyError] when the key is absent. *)
Definition getitem {A : Type} (key : string) (field : option A) : outcome A :=
  match field with
  | Some v => Return v
  | None => Raise (KeyError key)
  end.

(** The [if]/[elif] chain of [load_from_file]: the arguments are read
    left to right, then the constructor runs. *)
Definition build_product (p_type : string) (item : record) : outcome Product :=
  if (p_type =? "Electronics")%string then
    a1 <- getitem "product_id" (r_product_id item) ;;
    a2 <- getitem "name" (r_name item) ;;
    a3 <- getitem "price" (r_price item) ;;
    a4 <- getitem "quantity_in_stock" (r_quantity_in_stock item) ;;
    a5 <- getitem "warranty_years" (r_warranty_years item) ;;
    a6 <- getitem "brand" (r_brand item) ;;
    new_Electronics a1 a2 a3 a4 a5 a6
  else if (p_type =? "Grocery")%string then
    a1 <- getitem "product_id" (r_product_id item) ;;
    a2 <- getitem "name" (r_name item) ;;
    a3 <- getitem "price" (r_price item) ;;
    a4 <- getitem "quantity_in_stock" (r_quantity_in_stock item) ;;
    a5 <- getitem "expiry_date" (r_expiry_date item) ;;
    new_Grocery a1 a2 a3 a4 a5
  else if (p_type =? "Clothing")%string then
    a1 <- getitem "product_id" (r_product_id item) ;;
    a2 <- getitem "name" (r_name item) ;;
    a3 <- getitem "price" (r_price item) ;;
    a4 <- getitem "quantity_in_stock" (r_quantity_in_stock item) ;;
    a5 <- getitem "size" (r_size item) ;;
    a6 <- getitem "material" (r_material item) ;;
    new_Clothing a1 a2 a3 a4 a5 a6
  else Raise (InvalidProductDataError (UnknownType p_type)).

(** ** The inventory *)

(** [self._products], the only attribute of an [Inventory]. *)
Definition Inventory : Type := dict Product.

(** The files the program can open, by name. *)
Definition filesystem : Type := string -> option (list record).

Definition write_file (filename : string) (content : list record) (fs : filesystem)
  : filesystem :=
  fun f => if (f =? filename)%string then Some content else fs f.

(** [Inventory.__init__] *)
Definition new_Inventory : Inventory := [].

(** [Inventory.add_product] *)
Definition add_product (product : Product) : action Inventory unit :=
  fun self =>
    if dict_contains (product_id product) self
    then (Raise DuplicateProductError, self)
    else (Return tt, dict_set (product_id product) product self).

(** [Inventory.remove_product] *)
Definition remove_product (product_id : string) : action Inventory unit :=
  fun self =>
    if dict_contains product_id self
    then (Return tt, dict_del product_id self)
    else (Return tt, self).

(** [Inventory.search_by_name] *)
Definition search_by_name (name : string) (self : Inventory) : list Product :=
  filter (fun p => str_in (lower name) (lower (_name (base_of p)))) (dict_values self).

(** [Inventory.search_by_type] *)
Definition search_by_type (product_type : string) (self : Inventory) : list Product :=
  filter (fun p => (lower (class_name p) =? lower product_type)%string) (dict_values self).

(** [Inventory.list_all_products] *)
Definition list_all_products (self : Inventory) : list Product := dict_values self.

(** [self._products[product_id].method(...)]: the call changes the
    object the dictionary holds, in place. *)
Definition on_product (product_id : string) (method : action Product unit)
  : action Inventory unit :=
  fun self =>
    match dict_get product_id self with
    | Some p => let (r, p') := method p in (r, dict_set product_id p' self)
    | None => (Raise (KeyError product_id), self)
    end.

(** [Inventory.sell_product] *)
Definition sell_product (product_id : string) (quantity : Z) : action Inventory unit :=
  fun self =>
    if dict_contains product_id self
    then on_product product_id (sell quantity) self
    else (Return tt, self).

(** [Inventory.restock_product] *)
Definition restock_product (product_id : string) (quantity : Z) : action Inventory unit :=
  fun self =>
    if dict_contains product_id self
    then on_product product_id (restock quantity) self
    else (Return tt, self).

(** [Inventory.total_inventory_value]: [sum] adds from the left,
    starting at 0. *)
Definition total_inventory_value (self : Inventory) : num :=
  fold_left (fun acc p => num_add acc (get_total_value p)) (dict_values self) (num_of_int 0).

(** [Inventory.remove_expired_products] *)
Definition remove_expired_products (today : date) : action Inventory unit :=
  fun self =>
    let to_remove :=
      map fst (filter (fun kv => isinstance_Grocery (snd kv) && expired_grocery today (snd kv))
                      self) in
    (Return tt, fold_left (fun d pid => dict_del pid d) to_remove self).

(** [Inventory.save_to_file]: the inventory is only read; the file
    system receives the list of records. *)
Definition save_to_file (filename : string) (self : Inventory) : action filesystem unit :=
  fun fs => (Return tt, write_file filename (map to_dict (dict_values self)) fs).

(** The body of the loop of [load_from_file] for one record.  The
    lookup of ["type"] stands before the [try]. *)
Definition load_item (item : record) : action Inventory unit :=
  p_type <~ lift (getitem "type" (r_type item)) ;;
  try_except_KeyError
    (product <~ lift (build_product p_type item) ;;
     add_product product)
    (InvalidProductDataError MissingFields).

(** [Inventory.load_from_file]: [open] and [json.load] come first,
    then the dictionary is cleared and the records are added one by
    one. *)
Definition load_from_file (filename : string) (fs : filesystem) : action Inventory unit :=
  fun self =>
    match fs filename with
    | None => (Raise FileNotFoundError, self)
    | Some data => for_each data load_item []
    end.

(** ** Sequences of calls *)

(** The public methods of [Inventory] that change the inventory or the
    files. *)
Inductive call : Type :=
| AddProduct (product : Product)
| RemoveProduct (product_id : string)
| SellProduct (product_id : string) (quantity : Z)
| RestockProduct (product_id : string) (quantity : Z)
| RemoveExpiredProducts (today : date)
| SaveToFile (filename : string)
| LoadFromFile (filename : string).

(** One call on the files and the inventory. *)
Definition run_call (c : call) : action (filesystem * Inventory) unit :=
  fun '(fs, inv) =>
    match c with
    | AddProduct p => let (r, inv') := add_product p inv in (r, (fs, inv'))
    | RemoveProduct pid => let (r, inv') := remove_product pid inv in (r, (fs, inv'))
    | SellProduct pid q => let (r, inv') := sell_product pid q inv in (r, (fs, inv'))
    | RestockProduct pid q => let (r, inv') := restock_product pid q inv in (r, (fs, inv'))
    | RemoveExpiredProducts today =>
        let (r, inv') := remove_expired_products today inv in (r, (fs, inv'))
    | SaveToFile f => let (r, fs') := save_to_file f inv fs in (r, (fs', inv))
    | LoadFromFile f => let (r, inv') := load_from_file f fs inv in (r, (fs, inv'))
    end.

(** A session: the menu loop reports an exception and goes on with the
    state the failed call left. *)
Definition run_calls (cs : list call) (st : filesystem * Inventory) : filesystem * Inventory :=
  fold_left (fun st c => snd (run_call c st)) cs st.

(** ** Predicates on inventories and files *)

(** What holds of every dictionary the program builds: no key twice,
    every product stored under its own id, every expiry date a date. *)
Definition product_ok (p : Product) : bool :=
  match p with
  | Grocery _ e => valid_date e
  | _ => true
  end.

Definition wf_inventory (inv : Inventory) : bool :=
  unique_keys inv &&
  forallb (fun kv => (fst kv =? product_id (snd kv))%string && product_ok (snd kv)) inv.

(** No product has a negative stock. *)
Definition stock_nonneg (inv : Inventory) : bool :=
  forallb (fun kv => 0 <=? quantity_in_stock (snd kv)) inv.

(** A record whose quantity, when present, is not negative. *)
Definition record_nonneg (item : record) : bool :=
  match r_quantity_in_stock item with
  | Some q => 0 <=? q
  | None => true
  end.

(** The keys [load_from_file] reads for a record of a known type. *)
Definition has_base_fields (item : record) : bool :=
  match r_product_id item, r_name item, r_price item, r_quantity_in_stock item with
  | Some _, Some _, Some _, Some _ => true
  | _, _, _, _ => false
  end.

Definition has_required_fields (p_type : string) (item : record) : bool :=
  if (p_type =? "Electronics")%string then
    has_base_fields item &&
    match r_warranty_years item, r_brand item with Some _, Some _ => true | _, _ => false end
  else if (p_type =? "Grocery")%string then
    has_base_fields item &&
    match r_expiry_date item with Some _ => true | None => false end
  else if (p_type =? "Clothing")%string then
    has_base_fields item &&
    match r_size item, r_material item with Some _, Some _ => true | _, _ => false end
  else true.

Definition known_type (p_type : string) : bool :=
  (p_type =? "Electronics")%string || (p_type =? "Grocery")%string
  || (p_type =? "Clothing")%string.

(** [product] is what the loader reconstructs from [item]. *)
Definition reconstructs (item : record) (product : Product) : Prop :=
  exists p_type, r_type item = Some p_type /\ build_product p_type item = Return product.

(** Every file holds records with no negative quantity. *)
Definition files_nonneg (fs : filesystem) : Prop :=
  forall f data, fs f = Some data -> forallb record_nonneg data = true.

(** A call whose argument is an object the constructors can have
    made: the date of a grocery added is a date of the calendar. *)
Definition call_ok (c : call) : bool :=
  match c with
  | AddProduct p => product_ok p
  | _ => true
  end.

(** A call that brings no negative number in: the product added has a
    stock of at least 0, the amount restocked is at least 0. *)
Definition call_nonneg (c : call) : bool :=
  match c with
  | AddProduct p => 0 <=? quantity_in_stock p
  | RestockProduct _ amount => 0 <=? amount
  | _ => true
  end.
End Model.

Arguments RemoveProduct {num} product_id.
Arguments SellProduct {num} product_id quantity.
Arguments RestockProduct {num} product_id quantity.
Arguments RemoveExpiredProducts {num} today.
Arguments SaveToFile {num} filename.
Arguments LoadFromFile {num} filename.

(** ** Sample data *)

Module Samples.
Definition today : date := mkdate 2024 6 15.

Definition phone : Product Z := Electronics (mkBase "E1" "Phone" 100 5) 2 "Acme".
Definition milk : Product Z := Grocery (mkBase "G1" "Milk" 3 10) (mkdate 2000 1 1).
Definition rice : Product Z := Grocery (mkBase "G2" "Rice" 4 7) (mkdate 2024 6 15).
Definition shirt : Product Z := Clothing (mkBase "C1" "Shirt" 20 0) "M" "Cotton".

Definition shop : Inventory Z :=
  [("E1", phone); ("G1", milk); ("G2", rice); ("C1", shirt)].

Definition no_files : filesystem Z := fun _ => None.

(** A record with a type the loader does not know. *)
Definition toy : record Z :=
  mkRecord (Some "Toy") (Some "T1") (Some "Robot") (Some 15) (Some 1)
           None None None None None.

(** An electronics record without its brand. *)
Definition phone_no_brand : record Z :=
  mkRecord (Some "Electronics") (Some "E2") (Some "Radio") (Some 30) (Some 1)
           (Some 1) None None None None.

(** A grocery record whose date names a month 13. *)
Definition bad_date : record Z :=
  mkRecord (Some "Grocery") (Some "G9") (Some "Eggs") (Some 2) (Some 12)
           None None (Some "2024-13-01") None None.

(** The same record without its name. *)
Definition bad_date_no_name : record Z :=
  mkRecord (Some "Grocery") (Some "G9") None (Some 2) (Some 12)
           None None (Some "2024-13-01") None None.

Definition one_file (data : list (record Z)) : filesystem Z :=
  write_file "inv.json" data no_files.

(** A session at the menu, with sales of a negative quantity and of
    more than the stock. *)
Definition session : list (call Z) :=
  [ AddProduct phone; SellProduct "E1" (-3); SellProduct "E1" 100; RestockProduct "E1" 4;
    SaveToFile "inv.json"; RemoveProduct "C1"; LoadFromFile "inv.json";
    RemoveExpiredProducts today ].
End Samples.

(** * Properties *)

Unset Implicit Arguments.

(** ** Dictionaries *)

Section DictFacts.
Variable V : Type.
Implicit Types (d : dict V) (k : string) (v : V).

Lemma dict_contains_In k d : dict_contains k d = true <-> In k (dict_keys d).
Proof.
  unfold dict_contains. induction d as [|[k' v'] d IH]; simpl.
  - split; [discriminate | tauto].
  - destruct (String.eqb_spec k' k) as [->|Hne].
    + split; auto.
    + rewrite IH. split; [auto | intros [H|H]; [congruence | assumption]].
Qed.

Lemma dict_contains_false k d : dict_contains k d = false <-> ~ In k (dict_keys d).
Proof.
  rewrite <- dict_contains_In. destruct (dict_contains k d); split; congruence.
Qed.

Lemma dict_contains_get_None k d : dict_contains k d = false <-> dict_get k d = None.
Proof.
  unfold dict_contains. destruct (dict_get k d); split; congruence.
Qed.

Lemma unique_keys_NoDup d : unique_keys d = true <-> NoDup (dict_keys d).
Proof.
  induction d as [|[k v] d IH]; simpl.
  - split; [constructor | reflexivity].
  - rewrite andb_true_iff, negb_true_iff, dict_contains_false, IH.
    split.
    + intros [H1 H2]. constructor; assumption.
    + intros H. inversion H; subst. split; assumption.
Qed.

(** Assigning to a new key puts the pair last. *)
Lemma dict_set_new k v d : dict_contains k d = false -> dict_set k v d = d ++ [(k, v)].
Proof.
  unfold dict_contains. induction d as [|[k' v'] d IH]; simpl; [reflexivity|].
  destruct (k' =? k)%string; [discriminate|].
  intros H. rewrite IH by assumption. reflexivity.
Qed.

(** Writing back the value a key already holds changes nothing. *)
Lemma dict_set_same k v d : dict_get k d = Some v -> dict_set k v d = d.
Proof.
  induction d as [|[k' v'] d IH]; simpl; [discriminate|].
  destruct (k' =? k)%string.
  - intros [= ->]. reflexivity.
  - intros H. rewrite IH by assumption. reflexivity.
Qed.

Lemma dict_get_set k v d k' :
  dict_get k' (dict_set k v d) = if (k =? k')%string then Some v else dict_get k' d.
Proof.
  induction d as [|[k0 v0] d IH]; simpl.
  - reflexivity.
  - destruct (String.eqb_spec k0 k) as [->|Hne]; simpl.
    + destruct (k =? k')%string; reflexivity.
    + rewrite IH. destruct (String.eqb_spec k0 k') as [->|Hne'].
      * destruct (String.eqb_spec k k'); [congruence | reflexivity].
      * reflexivity.
Qed.

Lemma dict_get_app_new k v d k' :
  dict_contains k d = false ->
  dict_get k' (d ++ [(k, v)]) = if (k =? k')%string then Some v else dict_get k' d.
Proof.
  intros H. rewrite <- dict_set_new by assumption. apply dict_get_set.
Qed.

Lemma dict_keys_set_present k v d :
  dict_contains k d = true -> dict_keys (dict_set k v d) = dict_keys d.
Proof.
  unfold dict_contains, dict_keys. induction d as [|[k' v'] d IH]; simpl; [discriminate|].
  destruct (k' =? k)%string; simpl; [reflexivity|].
  intros H. rewrite IH by assumption. reflexivity.
Qed.

Lemma dict_get_In k v d : dict_get k d = Some v -> In (k, v) d.
Proof.
  induction d as [|[k' v'] d IH]; simpl; [discriminate|].
  destruct (String.eqb_spec k' k) as [->|Hne].
  - intros [= ->]. auto.
  - auto.
Qed.

Lemma In_dict_get k v d : unique_keys d = true -> In (k, v) d -> dict_get k d = Some v.
Proof.
  induction d as [|[k' v'] d IH]; simpl; [tauto|].
  rewrite andb_true_iff, negb_true_iff, dict_contains_false.
  intros [Hk Hu] [[= -> ->]|Hin].
  - rewrite String.eqb_refl. reflexivity.
  - destruct (String.eqb_spec k' k) as [->|Hne].
    + exfalso. apply Hk. apply (in_map fst) in Hin. exact Hin.
    + auto.
Qed.

(** In a dictionary, deleting a key drops exactly the pairs with that
    key. *)
Lemma dict_del_filter k d :
  unique_keys d = true ->
  dict_del k d = filter (fun kv => negb (fst kv =? k)%string) d.
Proof.
  induction d as [|[k' v'] d IH]; simpl; [reflexivity|].
  rewrite andb_true_iff, negb_true_iff, dict_contains_false.
  intros [Hk Hu]. destruct (String.eqb_spec k' k) as [->|Hne]; simpl.
  - symmetry. apply forallb_filter_id. apply forallb_forall.
    intros [k1 v1] Hin. simpl. apply negb_true_iff. apply String.eqb_neq.
    intros ->. apply Hk. apply (in_map fst) in Hin. exact Hin.
  - rewrite IH by assumption. reflexivity.
Qed.

Lemma unique_keys_filter (f : string * V -> bool) d :
  unique_keys d = true -> unique_keys (filter f d) = true.
Proof.
  rewrite !unique_keys_NoDup. unfold dict_keys.
  induction d as [|[k v] d IH]; simpl; [auto|].
  intros H. inversion H as [|? ? Hk Hd]; subst.
  destruct (f (k, v)); simpl; [|auto].
  constructor; [|auto].
  intros Hin. apply Hk. apply in_map_iff in Hin as [[k1 v1] [Heq Hin]].
  apply filter_In in Hin as [Hin _]. simpl in Heq. subst.
  apply (in_map fst) in Hin. exact Hin.
Qed.

(** Deleting a list of keys one after the other. *)
Lemma fold_dict_del_filter (ks : list string) d :
  unique_keys d = true ->
  fold_left (fun d' k => dict_del k d') ks d
  = filter (fun kv => negb (existsb (String.eqb (fst kv)) ks)) d.
Proof.
  revert d. induction ks as [|k ks IH]; intros d Hu; simpl.
  - symmetry. apply forallb_filter_id. apply forallb_forall. reflexivity.
  - rewrite dict_del_filter by assumption.
    rewrite IH by (apply unique_keys_filter; assumption).
    clear. induction d as [|[k' v'] d IHd]; simpl; [reflexivity|].
    destruct (k' =? k)%string; simpl.
    + exact IHd.
    + destruct (existsb (String.eqb k') ks); simpl; rewrite IHd; reflexivity.
Qed.

Lemma unique_keys_app_l d1 d2 : unique_keys (d1 ++ d2) = true -> unique_keys d1 = true.
Proof.
  rewrite !unique_keys_NoDup. unfold dict_keys. rewrite map_app.
  apply NoDup_app_remove_r.
Qed.

Lemma unique_keys_app_fresh d1 k v d2 :
  unique_keys (d1 ++ (k, v) :: d2) = true -> dict_contains k d1 = false.
Proof.
  rewrite unique_keys_NoDup, dict_contains_false. unfold dict_keys.
  rewrite map_app. simpl. intros H Hin.
  apply NoDup_remove_2 in H. apply H. apply in_or_app. left. exact Hin.
Qed.

Lemma dict_get_filter (f : string * V -> bool) k d :
  unique_keys d = true ->
  dict_get k (filter f d)
  = match dict_get k d with
    | Some v => if f (k, v) then Some v else None
    | None => None
    end.
Proof.
  induction d as [|[k' v'] d IH]; simpl; [reflexivity|].
  rewrite andb_true_iff, negb_true_iff, dict_contains_get_None.
  intros [Hk Hu]. specialize (IH Hu).
  destruct (f (k', v')) eqn:Hf; simpl.
  - destruct (String.eqb_spec k' k) as [->|Hne]; [rewrite Hf; reflexivity | exact IH].
  - destruct (String.eqb_spec k' k) as [->|Hne]; [|exact IH].
    rewrite Hf, IH, Hk. reflexivity.
Qed.

(** In a dictionary a key names one pair. *)
Lemma unique_keys_In_eq k v v' d :
  unique_keys d = true -> In (k, v) d -> In (k, v') d -> v = v'.
Proof.
  intros Hu H1 H2. apply (In_dict_get _ _ _ Hu) in H1. apply (In_dict_get _ _ _ Hu) in H2.
  congruence.
Qed.
End DictFacts.

(** ** Dates *)

Lemma In_Z_range (lo : Z) (len : nat) (n : Z) :
  lo <= n < lo + Z.of_nat len -> In n (Z_range lo len).
Proof.
  revert lo. induction len as [|len IH]; intros lo H; simpl.
  - lia.
  - destruct (Z.eq_dec lo n) as [Heq|Hne]; [left; exact Heq | right; apply IH; lia].
Qed.

(** Goes through the integers of a range one by one. *)
Ltac each_of_range lo len H :=
  let Hin := fresh "Hin" in
  match type of H with
  | _ <= ?n <= _ => assert (Hin : In n (Z_range lo len)) by (apply In_Z_range; simpl; lia)
  end;
  clear H; simpl in Hin;
  repeat (destruct Hin as [Hin|Hin]; [subst; reflexivity|]); contradiction.

Lemma is_digit_digit_char (n : Z) : 0 <= n <= 9 -> is_digit (digit_char n) = true.
Proof. intros H. each_of_range 0 10%nat H. Qed.

Lemma digit_val_digit_char (n : Z) : 0 <= n <= 9 -> digit_val (digit_char n) = n.
Proof. intros H. each_of_range 0 10%nat H. Qed.

(** Four digits written by ["%04d"] are read back by [%Y]. *)
Lemma match_Y_fmt_04d (y : Z) (rest : string) :
  0 <= y <= 9999 -> match_Y (fmt_04d y rest) = Some (y, rest).
Proof.
  intros Hy. unfold fmt_04d, match_Y.
  assert (H3 : 0 <= y / 1000 <= 9) by (Z.to_euclidean_division_equations; lia).
  assert (H2 : 0 <= y / 100 mod 10 <= 9) by (Z.to_euclidean_division_equations; lia).
  assert (H1 : 0 <= y / 10 mod 10 <= 9) by (Z.to_euclidean_division_equations; lia).
  assert (H0 : 0 <= y mod 10 <= 9) by (Z.to_euclidean_division_equations; lia).
  rewrite !is_digit_digit_char, !digit_val_digit_char by assumption.
  simpl andb. cbv iota. f_equal. f_equal.
  clear. Z.to_euclidean_division_equations. lia.
Qed.

(** Two digits written by ["%02d"] are read back by [%m], whatever
    follows them. *)
Lemma match_m_fmt_02d (m : Z) (rest : string) :
  1 <= m <= 12 -> match_m (fmt_02d m rest) = Some (m, rest).
Proof. intros H. each_of_range 1 12%nat H. Qed.

Lemma match_d_fmt_02d (d : Z) (rest : string) :
  1 <= d <= 31 -> match_d (fmt_02d d rest) = Some (d, rest).
Proof. intros H. each_of_range 1 31%nat H. Qed.

Lemma days_in_month_le_31 (y m : Z) : days_in_month y m <= 31.
Proof.
  unfold days_in_month.
  destruct (m =? 2); [destruct (is_leap y); lia|].
  destruct ((m =? 4) || (m =? 6) || (m =? 9) || (m =? 11)); lia.
Qed.

(** Parsing the ISO form of a date gives the date back. *)
Lemma strptime_isoformat (d : date) : valid_date d = true -> strptime (isoformat d) = Return d.
Proof.
  destruct d as [y m dd]. intros Hv.
  assert (Hb := Hv). unfold valid_date in Hb. simpl in Hb.
  rewrite !andb_true_iff, !Z.leb_le in Hb.
  destruct Hb as [[[[[Hy1 Hy2] Hm1] Hm2] Hd1] Hd2].
  pose proof (days_in_month_le_31 y m) as H31.
  unfold strptime, isoformat. cbn [year month day].
  rewrite match_Y_fmt_04d by lia.
  rewrite match_m_fmt_02d by lia.
  rewrite match_d_fmt_02d by lia.
  unfold date_new. rewrite Hv. reflexivity.
Qed.

(** The only exception of [strptime] is [ValueError], and what it
    returns is a date of the calendar. *)
Lemma strptime_outcome (s : string) :
  (exists d, strptime s = Return d /\ valid_date d = true) \/ strptime s = Raise ValueError.
Proof.
  unfold strptime.
  destruct (match_Y s) as [[y [|c s1]]|]; auto.
  destruct (Ascii.eqb_spec c "-") as [->|Hne].
  2:{ right. destruct c as [[] [] [] [] [] [] [] []]; try reflexivity. congruence. }
  destruct (match_m s1) as [[m [|c s2]]|]; auto.
  destruct (Ascii.eqb_spec c "-") as [->|Hne].
  2:{ right. destruct c as [[] [] [] [] [] [] [] []]; try reflexivity. congruence. }
  destruct (match_d s2) as [[dd [|c s3]]|]; auto.
  unfold date_new. destruct (valid_date (mkdate y m dd)) eqn:Hv; eauto.
Qed.

(** ** Products and the inventory *)

Section Properties.
Variable num : Type.
Context {NumOps : Numeric num}.
Implicit Types (p : Product num) (inv : Inventory num) (item : record num).

Lemma quantity_in_stock_set q p : quantity_in_stock (set_quantity_in_stock q p) = q.
Proof. destruct p; reflexivity. Qed.

Lemma price_set q p : price (set_quantity_in_stock q p) = price p.
Proof. destruct p; reflexivity. Qed.

Lemma product_id_set q p : product_id (set_quantity_in_stock q p) = product_id p.
Proof. destruct p; reflexivity. Qed.

(** C3.  Selling more than the stock raises [OutOfStockError] and
    leaves the product as it was; through the inventory, the
    exception is the same and the whole inventory is as it was. *)
Theorem sell_out_of_stock p (quantity : Z) :
  quantity > quantity_in_stock p ->
  sell quantity p = (Raise (OutOfStockError (quantity_in_stock p)), p) /\
  forall inv pid,
    dict_get pid inv = Some p ->
    sell_product pid quantity inv = (Raise (OutOfStockError (quantity_in_stock p)), inv).
Proof.
  intros Hq.
  assert (Hs : sell quantity p = (Raise (OutOfStockError (quantity_in_stock p)), p)).
  { unfold sell. destruct (Z.gtb_spec quantity (quantity_in_stock p)); [reflexivity | lia]. }
  split; [exact Hs|].
  intros inv pid Hget. unfold sell_product, on_product, dict_contains.
  rewrite Hget, Hs. rewrite dict_set_same by assumption. reflexivity.
Qed.

(** C7.  Selling at most the stock returns normally, the stock goes
    down by exactly the quantity sold and nothing else changes, so the
    total value is the price times the new stock. *)
Theorem sell_in_stock p (quantity : Z) :
  quantity <= quantity_in_stock p ->
  sell quantity p = (Return tt, set_quantity_in_stock (quantity_in_stock p - quantity) p) /\
  quantity_in_stock (snd (sell quantity p)) = quantity_in_stock p - quantity /\
  price (snd (sell quantity p)) = price p /\
  get_total_value (snd (sell quantity p))
  = num_mul_int (price p) (quantity_in_stock p - quantity).
Proof.
  intros Hq.
  assert (Hs : sell quantity p
               = (Return tt, set_quantity_in_stock (quantity_in_stock p - quantity) p)).
  { unfold sell. destruct (Z.gtb_spec quantity (quantity_in_stock p)); [lia | reflexivity]. }
  rewrite Hs. cbn [snd]. unfold get_total_value.
  rewrite quantity_in_stock_set, price_set. auto.
Qed.

Lemma add_product_present p inv :
  dict_contains (product_id p) inv = true ->
  add_product p inv = (Raise DuplicateProductError, inv).
Proof. intros H. unfold add_product. rewrite H. reflexivity. Qed.

Lemma add_product_absent p inv :
  dict_contains (product_id p) inv = false ->
  add_product p inv = (Return tt, inv ++ [(product_id p, p)]).
Proof.
  intros H. unfold add_product. rewrite H, dict_set_new by assumption. reflexivity.
Qed.

(** C6.  Adding a product whose id is a key of the dictionary raises
    [DuplicateProductError] and leaves the dictionary as it was;
    adding one whose id is new returns normally and puts the product
    under its id, after the pairs that were there. *)
Theorem add_product_spec p inv :
  (dict_contains (product_id p) inv = true ->
   add_product p inv = (Raise DuplicateProductError, inv)) /\
  (dict_contains (product_id p) inv = false ->
   add_product p inv = (Return tt, inv ++ [(product_id p, p)]) /\
   dict_get (product_id p) (snd (add_product p inv)) = Some p /\
   forall k, k <> product_id p -> dict_get k (snd (add_product p inv)) = dict_get k inv).
Proof.
  split; [apply add_product_present|].
  intros H. rewrite (add_product_absent p inv H). cbn [snd].
  split; [reflexivity|]. split.
  - rewrite dict_get_app_new by assumption. rewrite String.eqb_refl. reflexivity.
  - intros k Hk. rewrite dict_get_app_new by assumption.
    destruct (String.eqb_spec (product_id p) k); [congruence | reflexivity].
Qed.

(** C9.  For an id that is not a key, [remove_product], [sell_product]
    and [restock_product] return normally and the inventory is as it
    was. *)
Theorem missing_id_noop (pid : string) (quantity : Z) inv :
  dict_contains pid inv = false ->
  remove_product pid inv = (Return tt, inv) /\
  sell_product pid quantity inv = (Return tt, inv) /\
  restock_product pid quantity inv = (Return tt, inv).
Proof.
  intros H. unfold remove_product, sell_product, restock_product.
  rewrite H. auto.
Qed.

Lemma expired_grocery_isinstance today p :
  isinstance_Grocery p && expired_grocery today p = expired_grocery today p.
Proof. destruct p; reflexivity. Qed.

(** C5.  In a dictionary, [remove_expired_products] returns normally
    and keeps, in their order and unchanged, exactly the products that
    are not groceries with an expiry date strictly before today: under
    a key there is afterwards nothing if a grocery with such a date
    was there, and otherwise what was there before. *)
Theorem remove_expired_products_spec (today : date) inv :
  unique_keys inv = true ->
  remove_expired_products today inv
  = (Return tt, filter (fun kv => negb (expired_grocery today (snd kv))) inv) /\
  forall k,
    dict_get k (snd (remove_expired_products today inv))
    = match dict_get k inv with
      | Some (Grocery b e) => if date_lt e today then None else Some (Grocery b e)
      | other => other
      end.
Proof.
  intros Hu.
  assert (Heq : remove_expired_products today inv
                = (Return tt, filter (fun kv => negb (expired_grocery today (snd kv))) inv)).
  { unfold remove_expired_products. f_equal.
    rewrite fold_dict_del_filter by assumption.
    apply filter_ext_in. intros [k p] Hin. cbn [fst snd]. f_equal.
    apply eq_true_iff_eq. rewrite existsb_exists. split.
    - intros [k' [Hk' Heqb]]. apply String.eqb_eq in Heqb. subst k'.
      apply in_map_iff in Hk' as [[k1 p1] [Hk1 Hf]]. cbn [fst] in Hk1. subst k1.
      apply filter_In in Hf as [Hin1 Hp1]. cbn [snd] in Hp1.
      rewrite (unique_keys_In_eq _ _ _ _ _ Hu Hin Hin1).
      rewrite expired_grocery_isinstance in Hp1. exact Hp1.
    - intros He. exists k. split; [|apply String.eqb_refl].
      apply in_map_iff. exists (k, p). split; [reflexivity|].
      apply filter_In. split; [exact Hin|]. cbn [snd].
      rewrite expired_grocery_isinstance. exact He. }
  split; [exact Heq|].
  intros k. rewrite Heq. cbn [snd]. rewrite dict_get_filter by assumption.
  destruct (dict_get k inv) as [[b w br|b e|b s m]|]; cbn [snd expired_grocery negb];
    try reflexivity.
  unfold is_expired, date_gt. destruct (date_lt e today); reflexivity.
Qed.

(** *** Loading *)

Lemma for_each_app (S X : Type) (xs ys : list X) (body : X -> action S unit) (s : S) :
  for_each (xs ++ ys) body s
  = match for_each xs body s with
    | (Return _, s') => for_each ys body s'
    | (Raise e, s') => (Raise e, s')
    end.
Proof.
  revert s. induction xs as [|x xs IH]; intros s; simpl.
  - reflexivity.
  - unfold abind. destruct (body x s) as [[[]|e] s']; [apply IH | reflexivity].
Qed.

(** The loop body for one record, by cases on what the record holds. *)
Lemma load_item_cases item inv :
  match r_type item with
  | None => load_item item inv = (Raise (KeyError "type"), inv)
  | Some p_type =>
      match build_product p_type item with
      | Return product => load_item item inv = add_product product inv
      | Raise (KeyError _) =>
          load_item item inv = (Raise (InvalidProductDataError MissingFields), inv)
      | Raise e => load_item item inv = (Raise e, inv)
      end
  end.
Proof.
  unfold load_item, abind, lift, try_except_KeyError, getitem.
  destruct (r_type item) as [p_type|]; [|reflexivity].
  destruct (build_product p_type item) as [product|e].
  - unfold add_product. destruct (dict_contains (product_id product) inv); reflexivity.
  - destruct e; reflexivity.
Qed.

(** A record on which the loop body raises adds nothing. *)
Lemma load_item_raise item inv e inv' : load_item item inv = (Raise e, inv') -> inv' = inv.
Proof.
  pose proof (load_item_cases item inv) as H.
  destruct (r_type item) as [p_type|]; [|congruence].
  destruct (build_product p_type item) as [product|e0].
  - rewrite H. unfold add_product.
    destruct (dict_contains (product_id product) inv); congruence.
  - destruct e0; congruence.
Qed.

(** A record on which the loop body returns adds the product built
    from it, under the product's id. *)
Lemma load_item_return item inv inv' :
  load_item item inv = (Return tt, inv') ->
  exists p_type product,
    r_type item = Some p_type /\ build_product p_type item = Return product /\
    dict_contains (product_id product) inv = false /\
    inv' = inv ++ [(product_id product, product)].
Proof.
  pose proof (load_item_cases item inv) as H.
  destruct (r_type item) as [p_type|]; [|congruence].
  destruct (build_product p_type item) as [product|e0] eqn:Hb.
  - rewrite H. intros Hadd. exists p_type, product.
    destruct (dict_contains (product_id product) inv) eqn:Hc.
    + rewrite (add_product_present product inv Hc) in Hadd. discriminate.
    + rewrite (add_product_absent product inv Hc) in Hadd.
      injection Hadd as <-. auto.
  - destruct e0; congruence.
Qed.

(** The product a record was written from is built back from it. *)
Lemma build_product_to_dict p :
  product_ok p = true -> build_product (class_name p) (to_dict p) = Return p.
Proof.
  destruct p as [[pid nm pr q] w br|[pid nm pr q] e|[pid nm pr q] s m]; intros Hok.
  - reflexivity.
  - unfold build_product. cbn. unfold new_Grocery.
    rewrite (strptime_isoformat e Hok). reflexivity.
  - reflexivity.
Qed.

Lemma load_item_to_dict p inv :
  product_ok p = true -> dict_contains (product_id p) inv = false ->
  load_item (to_dict p) inv = (Return tt, inv ++ [(product_id p, p)]).
Proof.
  intros Hok Hnew.
  pose proof (load_item_cases (to_dict p) inv) as H.
  replace (r_type (to_dict p)) with (Some (class_name p)) in H by (destruct p; reflexivity).
  rewrite (build_product_to_dict p Hok) in H. rewrite H.
  apply add_product_absent. exact Hnew.
Qed.

Lemma load_saved_records (done rest : Inventory num) :
  wf_inventory (done ++ rest) = true ->
  for_each (map (@to_dict num) (dict_values rest)) (@load_item num) done
  = (Return tt, done ++ rest).
Proof.
  revert done. induction rest as [|[k p] rest IH]; intros done Hwf.
  - rewrite app_nil_r. reflexivity.
  - unfold wf_inventory in Hwf. apply andb_true_iff in Hwf as [Hu Hall].
    pose proof (unique_keys_app_fresh _ _ _ _ _ Hu) as Hfresh.
    rewrite forallb_app in Hall. apply andb_true_iff in Hall as [Hall1 Hall2].
    simpl in Hall2. apply andb_true_iff in Hall2 as [Hkp Hall2].
    apply andb_true_iff in Hkp as [Hk Hok]. apply String.eqb_eq in Hk. subst k.
    simpl. unfold abind. rewrite (load_item_to_dict p done Hok Hfresh).
    replace (done ++ (product_id p, p) :: rest)
      with ((done ++ [(product_id p, p)]) ++ rest) in * by (rewrite <- app_assoc; reflexivity).
    apply IH. unfold wf_inventory. rewrite Hu. simpl.
    rewrite !forallb_app, Hall1, Hall2. simpl.
    rewrite String.eqb_refl, Hok. reflexivity.
Qed.

(** C1.  Saving an inventory under a name and loading that name gives
    back the inventory: the same ids, in the same order, each with the
    product it had, field for field and for each of the three
    subclasses, whatever the inventory that loads held before.  The
    inventory saved is a dictionary as the program builds them
    ([wf_inventory]). *)
Theorem save_load_roundtrip (filename : string) (fs : filesystem num) (inv before : Inventory num) :
  wf_inventory inv = true ->
  load_from_file filename (snd (save_to_file filename inv fs)) before = (Return tt, inv).
Proof.
  intros Hwf. unfold load_from_file, save_to_file, write_file. cbn [snd].
  rewrite String.eqb_refl. apply (load_saved_records []). exact Hwf.
Qed.

(** When the loop has gone through a list of records without an
    exception, the dictionary has grown by the products reconstructed
    from them, one for each record, in their order. *)
Lemma for_each_load_item_return (data : list (record num)) inv inv' :
  for_each data (@load_item num) inv = (Return tt, inv') ->
  exists products,
    Forall2 (@reconstructs num) data products /\
    inv' = inv ++ map (fun p => (product_id p, p)) products.
Proof.
  revert inv. induction data as [|item data IH]; intros inv; simpl.
  - intros [= <-]. exists []. split; [constructor | rewrite app_nil_r; reflexivity].
  - unfold abind. destruct (load_item item inv) as [[[]|e] inv1] eqn:Hitem; [|discriminate].
    intros Hrest. apply load_item_return in Hitem as (t & p & Ht & Hb & _ & ->).
    apply IH in Hrest as (products & Hall & ->).
    exists (p :: products). split.
    + constructor; [exists t; auto | exact Hall].
    + rewrite <- app_assoc. reflexivity.
Qed.

(** Loading a file whose record [item] is the first on which the loop
    body raises. *)
Lemma load_from_file_first_raise (filename : string) (fs : filesystem num)
    (before loaded : Inventory num) (pre post : list (record num)) item e :
  fs filename = Some (pre ++ item :: post) ->
  for_each pre (@load_item num) [] = (Return tt, loaded) ->
  fst (load_item item loaded) = Raise e ->
  load_from_file filename fs before = (Raise e, loaded).
Proof.
  intros Hfile Hpre Hitem. unfold load_from_file. rewrite Hfile.
  rewrite for_each_app, Hpre. simpl. unfold abind.
  destruct (load_item item loaded) as [[[]|e'] inv1] eqn:H; simpl in Hitem; [discriminate|].
  injection Hitem as ->. apply load_item_raise in H. subst inv1. reflexivity.
Qed.

(** C8.  [load_from_file] is not atomic.  When the loop body raises on
    a record after having returned on all the records before it, the
    call raises that exception and the inventory is left holding
    exactly the products reconstructed from the records before it,
    each under its id and in their order; what the inventory held
    before the call has no part in the result. *)
Theorem load_not_atomic (filename : string) (fs : filesystem num)
    (before loaded : Inventory num) (pre post : list (record num)) item e :
  fs filename = Some (pre ++ item :: post) ->
  for_each pre (@load_item num) [] = (Return tt, loaded) ->
  fst (load_item item loaded) = Raise e ->
  load_from_file filename fs before = (Raise e, loaded) /\
  exists products,
    Forall2 (@reconstructs num) pre products /\
    loaded = map (fun p => (product_id p, p)) products.
Proof.
  intros Hfile Hpre Hitem. split.
  - eapply load_from_file_first_raise; eassumption.
  - apply for_each_load_item_return in Hpre. exact Hpre.
Qed.

Lemma build_product_unknown_type (p_type : string) item :
  known_type p_type = false ->
  build_product p_type item = Raise (InvalidProductDataError (UnknownType p_type)).
Proof.
  unfold known_type, build_product. rewrite !orb_false_iff.
  intros [[-> ->] ->]. reflexivity.
Qed.

Lemma build_product_missing_field (p_type : string) item :
  has_required_fields p_type item = false ->
  exists key, build_product p_type item = Raise (KeyError key).
Proof.
  unfold has_required_fields, has_base_fields, build_product.
  destruct item as [ty pid nm pr q w br e s m]. cbn.
  destruct (p_type =? "Electronics")%string.
  { destruct pid, nm, pr, q, w, br; cbn; intros H; try discriminate; eauto. }
  destruct (p_type =? "Grocery")%string.
  { destruct pid, nm, pr, q, e; cbn; intros H; try discriminate; eauto. }
  destruct (p_type =? "Clothing")%string.
  { destruct pid, nm, pr, q, s, m; cbn; intros H; try discriminate; eauto. }
  discriminate.
Qed.

(** C4, amended.  When the loop body has returned on all the records
    before it, a record whose type is not one of the three names, or
    whose type is one of them while a key that type reads is absent,
    makes [load_from_file] raise [InvalidProductDataError]; the
    inventory is left with what the records before it gave, so nothing
    comes from the record itself. *)
Theorem load_invalid_record (filename : string) (fs : filesystem num)
    (before loaded : Inventory num) (pre post : list (record num)) item (p_type : string) :
  fs filename = Some (pre ++ item :: post) ->
  for_each pre (@load_item num) [] = (Return tt, loaded) ->
  r_type item = Some p_type ->
  known_type p_type = false
  \/ (known_type p_type = true /\ has_required_fields p_type item = false) ->
  exists why,
    load_from_file filename fs before = (Raise (InvalidProductDataError why), loaded).
Proof.
  intros Hfile Hpre Hty Hbad.
  pose proof (load_item_cases item loaded) as Hc. rewrite Hty in Hc.
  destruct Hbad as [Hunknown | [_ Hmissing]].
  - rewrite (build_product_unknown_type _ item Hunknown) in Hc.
    exists (UnknownType p_type).
    eapply load_from_file_first_raise; try eassumption. rewrite Hc. reflexivity.
  - destruct (build_product_missing_field _ _ Hmissing) as [key Hb]. rewrite Hb in Hc.
    exists MissingFields.
    eapply load_from_file_first_raise; try eassumption. rewrite Hc. reflexivity.
Qed.

Lemma build_product_bad_date item (s : string) :
  has_required_fields "Grocery" item = true ->
  r_expiry_date item = Some s ->
  (forall d, strptime s <> Return d) ->
  build_product "Grocery" item = Raise ValueError.
Proof.
  unfold has_required_fields, has_base_fields, build_product.
  destruct item as [ty pid nm pr q w br e s' m]. cbn.
  destruct pid, nm, pr, q, e; cbn; try discriminate.
  intros _ [= ->] Hbad. unfold new_Grocery.
  destruct (strptime_outcome s) as [(d & Hd & _) | ->]; [|reflexivity].
  exfalso. exact (Hbad d Hd).
Qed.

(** C10, amended.  When the loop body has returned on all the records
    before it, a record of type ["Grocery"] that has every key a
    grocery reads, and whose expiry date is a string the date format
    does not accept, makes [load_from_file] raise [ValueError], which
    is neither an [InvalidProductDataError] nor any other
    [InventoryError]. *)
Theorem load_bad_expiry_date (filename : string) (fs : filesystem num)
    (before loaded : Inventory num) (pre post : list (record num)) item (s : string) :
  fs filename = Some (pre ++ item :: post) ->
  for_each pre (@load_item num) [] = (Return tt, loaded) ->
  r_type item = Some "Grocery" ->
  has_required_fields "Grocery" item = true ->
  r_expiry_date item = Some s ->
  (forall d, strptime s <> Return d) ->
  load_from_file filename fs before = (Raise ValueError, loaded) /\
  is_InventoryError ValueError = false /\
  is_InvalidProductDataError ValueError = false.
Proof.
  intros Hfile Hpre Hty Hreq Hdate Hbad.
  pose proof (load_item_cases item loaded) as Hc. rewrite Hty in Hc.
  rewrite (build_product_bad_date _ _ Hreq Hdate Hbad) in Hc.
  split; [|split; reflexivity].
  eapply load_from_file_first_raise; try eassumption. rewrite Hc. reflexivity.
Qed.

(** *** The sign of the stock *)

Lemma stock_nonneg_dict_set (k : string) p inv :
  stock_nonneg inv = true -> 0 <= quantity_in_stock p ->
  stock_nonneg (dict_set k p inv) = true.
Proof.
  intros Hinv Hp. induction inv as [|[k' p'] inv IH]; simpl in *.
  - rewrite andb_true_r. apply Z.leb_le. exact Hp.
  - apply andb_true_iff in Hinv as [H1 H2].
    destruct (k' =? k)%string; simpl.
    + rewrite H2, andb_true_r. apply Z.leb_le. exact Hp.
    + rewrite H1. apply IH. exact H2.
Qed.

Lemma stock_nonneg_dict_del (k : string) inv :
  stock_nonneg inv = true -> stock_nonneg (dict_del k inv) = true.
Proof.
  induction inv as [|[k' p'] inv IH]; simpl; [reflexivity|].
  intros H. apply andb_true_iff in H as [H1 H2].
  destruct (k' =? k)%string; simpl; [exact H2|].
  rewrite H1. apply IH. exact H2.
Qed.

Lemma stock_nonneg_get (k : string) p inv :
  stock_nonneg inv = true -> dict_get k inv = Some p -> 0 <= quantity_in_stock p.
Proof.
  intros Hinv Hget. apply dict_get_In in Hget.
  unfold stock_nonneg in Hinv. rewrite forallb_forall in Hinv.
  apply Hinv in Hget. apply Z.leb_le. exact Hget.
Qed.

Lemma add_product_nonneg p inv :
  stock_nonneg inv = true -> 0 <= quantity_in_stock p ->
  stock_nonneg (snd (add_product p inv)) = true.
Proof.
  intros Hinv Hp. unfold add_product.
  destruct (dict_contains (product_id p) inv); cbn [snd]; [exact Hinv|].
  apply stock_nonneg_dict_set; assumption.
Qed.

Lemma remove_product_nonneg (pid : string) inv :
  stock_nonneg inv = true -> stock_nonneg (snd (remove_product pid inv)) = true.
Proof.
  intros Hinv. unfold remove_product.
  destruct (dict_contains pid inv); cbn [snd]; [|exact Hinv].
  apply stock_nonneg_dict_del. exact Hinv.
Qed.

(** [sell] keeps a stock that is not negative so, whatever integer it
    is given. *)
Lemma sell_nonneg (quantity : Z) p :
  0 <= quantity_in_stock p -> 0 <= quantity_in_stock (snd (sell quantity p)).
Proof.
  intros Hp. unfold sell.
  destruct (Z.gtb_spec quantity (quantity_in_stock p)); cbn [snd]; [exact Hp|].
  rewrite quantity_in_stock_set. lia.
Qed.

Lemma sell_product_nonneg (pid : string) (quantity : Z) inv :
  stock_nonneg inv = true -> stock_nonneg (snd (sell_product pid quantity inv)) = true.
Proof.
  intros Hinv. unfold sell_product, on_product, dict_contains.
  destruct (dict_get pid inv) as [p|] eqn:Hget; [|exact Hinv].
  pose proof (sell_nonneg quantity p (stock_nonneg_get _ _ _ Hinv Hget)) as Hs.
  destruct (sell quantity p) as [r p']. cbn [snd] in *.
  apply stock_nonneg_dict_set; assumption.
Qed.

Lemma restock_product_nonneg (pid : string) (amount : Z) inv :
  stock_nonneg inv = true -> 0 <= amount ->
  stock_nonneg (snd (restock_product pid amount inv)) = true.
Proof.
  intros Hinv Ha. unfold restock_product, on_product, dict_contains, restock.
  destruct (dict_get pid inv) as [p|] eqn:Hget; [|exact Hinv].
  cbn [snd]. apply stock_nonneg_dict_set; [exact Hinv|].
  rewrite quantity_in_stock_set.
  pose proof (stock_nonneg_get _ _ _ Hinv Hget). lia.
Qed.

Lemma remove_expired_products_nonneg (today : date) inv :
  stock_nonneg inv = true ->
  stock_nonneg (snd (remove_expired_products today inv)) = true.
Proof.
  unfold remove_expired_products. cbn [snd].
  generalize (map fst (filter (fun kv : string * Product num =>
    isinstance_Grocery (snd kv) && expired_grocery today (snd kv)) inv)).
  intros ks. revert inv. induction ks as [|k ks IH]; intros inv Hinv; simpl.
  - exact Hinv.
  - apply IH. apply stock_nonneg_dict_del. exact Hinv.
Qed.

Lemma build_product_quantity (p_type : string) item p :
  build_product p_type item = Return p ->
  r_quantity_in_stock item = Some (quantity_in_stock p).
Proof.
  unfold build_product. destruct item as [ty pid nm pr q w br e s m]. cbn.
  destruct (p_type =? "Electronics")%string.
  { destruct pid, nm, pr, q, w, br; cbn; intros [= <-]; reflexivity. }
  destruct (p_type =? "Grocery")%string.
  { destruct pid, nm, pr, q, e as [e|]; cbn; try discriminate.
    unfold new_Grocery. destruct (strptime e); cbn; intros [= <-]; reflexivity. }
  destruct (p_type =? "Clothing")%string.
  { destruct pid, nm, pr, q, s, m; cbn; intros [= <-]; reflexivity. }
  discriminate.
Qed.

Lemma load_item_nonneg item inv :
  record_nonneg item = true -> stock_nonneg inv = true ->
  stock_nonneg (snd (load_item item inv)) = true.
Proof.
  intros Hitem Hinv.
  destruct (load_item item inv) as [[[]|e] inv'] eqn:Hload; cbn [snd].
  - apply load_item_return in Hload as (t & p & _ & Hb & _ & ->).
    apply build_product_quantity in Hb.
    unfold record_nonneg in Hitem. rewrite Hb in Hitem.
    unfold stock_nonneg in *. rewrite forallb_app, Hinv. simpl.
    rewrite Hitem. reflexivity.
  - apply load_item_raise in Hload. subst. exact Hinv.
Qed.

Lemma for_each_load_item_nonneg (data : list (record num)) inv :
  forallb (@record_nonneg num) data = true -> stock_nonneg inv = true ->
  stock_nonneg (snd (for_each data (@load_item num) inv)) = true.
Proof.
  revert inv. induction data as [|item data IH]; intros inv Hdata Hinv; simpl.
  - exact Hinv.
  - simpl in Hdata. apply andb_true_iff in Hdata as [Hitem Hdata].
    pose proof (load_item_nonneg item inv Hitem Hinv) as H1.
    unfold abind. destruct (load_item item inv) as [[[]|e] inv1]; cbn [snd] in *.
    + apply IH; assumption.
    + exact H1.
Qed.

Lemma load_from_file_nonneg (filename : string) (fs : filesystem num) inv :
  files_nonneg fs -> stock_nonneg inv = true ->
  stock_nonneg (snd (load_from_file filename fs inv)) = true.
Proof.
  intros Hfs Hinv. unfold load_from_file.
  destruct (fs filename) as [data|] eqn:Hfile; [|exact Hinv].
  apply for_each_load_item_nonneg; [|reflexivity].
  exact (Hfs filename data Hfile).
Qed.

Lemma record_nonneg_to_dict p : record_nonneg (to_dict p) = (0 <=? quantity_in_stock p).
Proof. destruct p; reflexivity. Qed.

Lemma save_to_file_nonneg (filename : string) (fs : filesystem num) inv :
  files_nonneg fs -> stock_nonneg inv = true ->
  files_nonneg (snd (save_to_file filename inv fs)).
Proof.
  intros Hfs Hinv f data. unfold save_to_file, write_file. cbn [snd].
  destruct (f =? filename)%string; [|apply Hfs].
  intros [= <-]. unfold dict_values. rewrite forallb_forall. intros r Hr.
  apply in_map_iff in Hr as [p [<- Hp]]. apply in_map_iff in Hp as [[k p'] [<- Hin]].
  rewrite record_nonneg_to_dict. unfold stock_nonneg in Hinv.
  rewrite forallb_forall in Hinv. exact (Hinv _ Hin).
Qed.

Lemma run_call_nonneg (c : call num) (fs : filesystem num) inv :
  files_nonneg fs -> stock_nonneg inv = true -> call_nonneg c = true ->
  files_nonneg (fst (snd (run_call c (fs, inv)))) /\
  stock_nonneg (snd (snd (run_call c (fs, inv)))) = true.
Proof.
  intros Hfs Hinv Hc. destruct c as [p|pid|pid q|pid q|today|f|f]; cbn [run_call call_nonneg] in *.
  - pose proof (add_product_nonneg p inv Hinv (proj1 (Z.leb_le _ _) Hc)) as H.
    destruct (add_product p inv); auto.
  - pose proof (remove_product_nonneg pid inv Hinv) as H.
    destruct (remove_product pid inv); auto.
  - pose proof (sell_product_nonneg pid q inv Hinv) as H.
    destruct (sell_product pid q inv); auto.
  - pose proof (restock_product_nonneg pid q inv Hinv (proj1 (Z.leb_le _ _) Hc)) as H.
    destruct (restock_product pid q inv); auto.
  - pose proof (remove_expired_products_nonneg today inv Hinv) as H.
    destruct (remove_expired_products today inv); auto.
  - pose proof (save_to_file_nonneg f fs inv Hfs Hinv) as H.
    destruct (save_to_file f inv fs); auto.
  - pose proof (load_from_file_nonneg f fs inv Hfs Hinv) as H.
    destruct (load_from_file f fs inv); auto.
Qed.

(** C2, amended.  Starting from an inventory with no negative stock
    and files with no negative quantity, the stock of every product is
    not negative after any sequence of calls of the public methods in
    which every product added has a stock of at least 0 and every
    amount restocked is at least 0; the quantities sold are arbitrary
    integers. *)
Theorem stock_nonneg_run_calls (cs : list (call num)) (fs : filesystem num) inv :
  files_nonneg fs ->
  stock_nonneg inv = true ->
  forallb (@call_nonneg num) cs = true ->
  stock_nonneg (snd (run_calls cs (fs, inv))) = true.
Proof.
  revert fs inv. induction cs as [|c cs IH]; intros fs inv Hfs Hinv Hcs.
  - exact Hinv.
  - simpl in Hcs. apply andb_true_iff in Hcs as [Hc Hcs].
    destruct (run_call_nonneg c fs inv Hfs Hinv Hc) as [H1 H2].
    change (run_calls (c :: cs) (fs, inv)) with (run_calls cs (snd (run_call c (fs, inv)))).
    destruct (run_call c (fs, inv)) as [r [fs' inv']]. cbn [fst snd] in *.
    apply IH; assumption.
Qed.
(** *** The shape of the dictionary *)

Lemma unique_keys_app_new (V : Type) (k : string) (v : V) (d : dict V) :
  unique_keys d = true -> dict_contains k d = false -> unique_keys (d ++ [(k, v)]) = true.
Proof.
  rewrite !unique_keys_NoDup, dict_contains_false. unfold dict_keys.
  rewrite map_app. simpl. intros Hd Hk. apply NoDup_app; [exact Hd | |].
  - constructor; [simpl; tauto | constructor].
  - intros a Ha [<-|[]]. exact (Hk Ha).
Qed.

Lemma unique_keys_dict_del (V : Type) (k : string) (d : dict V) :
  unique_keys d = true -> unique_keys (dict_del k d) = true.
Proof.
  intros H. rewrite dict_del_filter by assumption. apply unique_keys_filter. exact H.
Qed.

Lemma forallb_dict_del (V : Type) (f : string * V -> bool) (k : string) (d : dict V) :
  forallb f d = true -> forallb f (dict_del k d) = true.
Proof.
  induction d as [|[k' v'] d IH]; simpl; [reflexivity|].
  intros H. apply andb_true_iff in H as [H1 H2].
  destruct (k' =? k)%string; simpl; [exact H2|].
  rewrite H1. apply IH. exact H2.
Qed.

Lemma forallb_dict_set_present (V : Type) (f : string * V -> bool) (k : string) (v : V)
    (d : dict V) :
  forallb f d = true -> dict_contains k d = true -> f (k, v) = true ->
  forallb f (dict_set k v d) = true.
Proof.
  unfold dict_contains. induction d as [|[k' v'] d IH]; simpl; [discriminate|].
  intros H Hc Hf. apply andb_true_iff in H as [H1 H2].
  destruct (String.eqb_spec k' k) as [->|Hne]; simpl.
  - rewrite Hf, H2. reflexivity.
  - rewrite H1. apply IH; assumption.
Qed.

Lemma wf_inventory_dict_del (k : string) inv :
  wf_inventory inv = true -> wf_inventory (dict_del k inv) = true.
Proof.
  unfold wf_inventory. rewrite !andb_true_iff. intros [Hu Hall].
  split; [apply unique_keys_dict_del | apply forallb_dict_del]; assumption.
Qed.

Lemma wf_inventory_app_new p inv :
  wf_inventory inv = true -> dict_contains (product_id p) inv = false ->
  product_ok p = true -> wf_inventory (inv ++ [(product_id p, p)]) = true.
Proof.
  unfold wf_inventory. rewrite !andb_true_iff. intros [Hu Hall] Hnew Hok. split.
  - apply unique_keys_app_new; assumption.
  - rewrite forallb_app, Hall. simpl. rewrite String.eqb_refl, Hok. reflexivity.
Qed.

(** A method that keeps the id and the class attributes of the product
    it is called on keeps the shape of the dictionary. *)
Lemma wf_inventory_on_product (pid : string) (method : action (Product num) unit) inv :
  (forall p, product_id (snd (method p)) = product_id p /\
             product_ok (snd (method p)) = product_ok p) ->
  wf_inventory inv = true ->
  wf_inventory (snd (on_product pid method inv)) = true.
Proof.
  intros Hm Hwf. unfold on_product.
  destruct (dict_get pid inv) as [p|] eqn:Hget; [|exact Hwf].
  destruct (Hm p) as [Hid Hok]. destruct (method p) as [r p']. cbn [snd] in *.
  assert (Hc : dict_contains pid inv = true) by (unfold dict_contains; rewrite Hget; reflexivity).
  unfold wf_inventory in *. apply andb_true_iff in Hwf as [Hu Hall].
  apply andb_true_iff. split.
  - rewrite unique_keys_NoDup in *. rewrite dict_keys_set_present by assumption. exact Hu.
  - apply forallb_dict_set_present; [exact Hall | exact Hc |].
    rewrite forallb_forall in Hall. specialize (Hall _ (dict_get_In _ _ _ _ Hget)).
    cbn [fst snd] in *. rewrite Hid, Hok. exact Hall.
Qed.

Lemma sell_keeps_shape (quantity : Z) p :
  product_id (snd (sell quantity p)) = product_id p /\
  product_ok (snd (sell quantity p)) = product_ok p.
Proof.
  unfold sell. destruct (quantity >? quantity_in_stock p); cbn [snd]; [auto|].
  destruct p; auto.
Qed.

Lemma restock_keeps_shape (amount : Z) p :
  product_id (snd (restock amount p)) = product_id p /\
  product_ok (snd (restock amount p)) = product_ok p.
Proof. unfold restock. cbn [snd]. destruct p; auto. Qed.

Lemma build_product_ok (p_type : string) item p :
  build_product p_type item = Return p -> product_ok p = true.
Proof.
  unfold build_product. destruct item as [ty pid nm pr q w br e s m]. cbn.
  destruct (p_type =? "Electronics")%string.
  { destruct pid, nm, pr, q, w, br; cbn; intros [= <-]; reflexivity. }
  destruct (p_type =? "Grocery")%string.
  { destruct pid, nm, pr, q, e as [e|]; cbn; try discriminate.
    unfold new_Grocery. destruct (strptime_outcome e) as [(d & -> & Hd) | ->]; cbn.
    - intros [= <-]. exact Hd.
    - discriminate. }
  destruct (p_type =? "Clothing")%string.
  { destruct pid, nm, pr, q, s, m; cbn; intros [= <-]; reflexivity. }
  discriminate.
Qed.

Lemma wf_inventory_load_item item inv :
  wf_inventory inv = true -> wf_inventory (snd (load_item item inv)) = true.
Proof.
  intros Hwf. destruct (load_item item inv) as [[[]|e] inv'] eqn:Hload; cbn [snd].
  - apply load_item_return in Hload as (t & p & _ & Hb & Hnew & ->).
    apply wf_inventory_app_new; [exact Hwf | exact Hnew |].
    exact (build_product_ok _ _ _ Hb).
  - apply load_item_raise in Hload. subst. exact Hwf.
Qed.

Lemma wf_inventory_for_each_load_item (data : list (record num)) inv :
  wf_inventory inv = true ->
  wf_inventory (snd (for_each data (@load_item num) inv)) = true.
Proof.
  revert inv. induction data as [|item data IH]; intros inv Hwf; simpl.
  - exact Hwf.
  - pose proof (wf_inventory_load_item item inv Hwf) as H1.
    unfold abind. destruct (load_item item inv) as [[[]|e] inv1]; cbn [snd] in *.
    + apply IH. exact H1.
    + exact H1.
Qed.

Lemma wf_inventory_add_product p inv :
  wf_inventory inv = true -> product_ok p = true ->
  wf_inventory (snd (add_product p inv)) = true.
Proof.
  intros Hwf Hok. destruct (dict_contains (product_id p) inv) eqn:Hc.
  - rewrite (add_product_present p inv Hc). exact Hwf.
  - rewrite (add_product_absent p inv Hc). apply wf_inventory_app_new; assumption.
Qed.

Lemma wf_inventory_remove_product (pid : string) inv :
  wf_inventory inv = true -> wf_inventory (snd (remove_product pid inv)) = true.
Proof.
  intros Hwf. unfold remove_product. destruct (dict_contains pid inv); cbn [snd]; [|exact Hwf].
  apply wf_inventory_dict_del. exact Hwf.
Qed.

Lemma wf_inventory_sell_product (pid : string) (quantity : Z) inv :
  wf_inventory inv = true -> wf_inventory (snd (sell_product pid quantity inv)) = true.
Proof.
  intros Hwf. unfold sell_product. destruct (dict_contains pid inv); [|exact Hwf].
  apply wf_inventory_on_product; [apply sell_keeps_shape | exact Hwf].
Qed.

Lemma wf_inventory_restock_product (pid : string) (amount : Z) inv :
  wf_inventory inv = true -> wf_inventory (snd (restock_product pid amount inv)) = true.
Proof.
  intros Hwf. unfold restock_product. destruct (dict_contains pid inv); [|exact Hwf].
  apply wf_inventory_on_product; [apply restock_keeps_shape | exact Hwf].
Qed.

Lemma wf_inventory_remove_expired_products (today : date) inv :
  wf_inventory inv = true ->
  wf_inventory (snd (remove_expired_products today inv)) = true.
Proof.
  unfold remove_expired_products. cbn [snd].
  generalize (map fst (filter (fun kv : string * Product num =>
    isinstance_Grocery (snd kv) && expired_grocery today (snd kv)) inv)).
  intros ks. revert inv. induction ks as [|k ks IH]; intros inv Hwf; simpl.
  - exact Hwf.
  - apply IH. apply wf_inventory_dict_del. exact Hwf.
Qed.

Lemma wf_inventory_load_from_file (filename : string) (fs : filesystem num) inv :
  wf_inventory inv = true -> wf_inventory (snd (load_from_file filename fs inv)) = true.
Proof.
  intros Hwf. unfold load_from_file. destruct (fs filename) as [data|]; [|exact Hwf].
  apply wf_inventory_for_each_load_item. reflexivity.
Qed.

Lemma wf_inventory_run_call (c : call num) (fs : filesystem num) inv :
  wf_inventory inv = true -> call_ok c = true ->
  wf_inventory (snd (snd (run_call c (fs, inv)))) = true.
Proof.
  intros Hwf Hc. destruct c as [p|pid|pid q|pid q|today|f|f]; cbn [run_call call_ok] in *.
  - pose proof (wf_inventory_add_product p inv Hwf Hc) as H.
    destruct (add_product p inv); exact H.
  - pose proof (wf_inventory_remove_product pid inv Hwf) as H.
    destruct (remove_product pid inv); exact H.
  - pose proof (wf_inventory_sell_product pid q inv Hwf) as H.
    destruct (sell_product pid q inv); exact H.
  - pose proof (wf_inventory_restock_product pid q inv Hwf) as H.
    destruct (restock_product pid q inv); exact H.
  - pose proof (wf_inventory_remove_expired_products today inv Hwf) as H.
    destruct (remove_expired_products today inv); exact H.
  - exact Hwf.
  - pose proof (wf_inventory_load_from_file f fs inv Hwf) as H.
    destruct (load_from_file f fs inv); exact H.
Qed.

(** Every inventory a session builds from the empty one is a
    dictionary with each product under its own id and each date of a
    grocery in the calendar: the inventories the statements about
    saving and about the expiry sweep are made for. *)
Lemma wf_inventory_run_calls (cs : list (call num)) (fs : filesystem num) inv :
  wf_inventory inv = true -> forallb (@call_ok num) cs = true ->
  wf_inventory (snd (run_calls cs (fs, inv))) = true.
Proof.
  revert fs inv. induction cs as [|c cs IH]; intros fs inv Hwf Hcs.
  - exact Hwf.
  - simpl in Hcs. apply andb_true_iff in Hcs as [Hc Hcs].
    pose proof (wf_inventory_run_call c fs inv Hwf Hc) as H.
    change (run_calls (c :: cs) (fs, inv)) with (run_calls cs (snd (run_call c (fs, inv)))).
    destruct (run_call c (fs, inv)) as [r [fs' inv']]. cbn [snd] in *.
    apply IH; assumption.
Qed.

Lemma wf_inventory_new : wf_inventory (new_Inventory num) = true.
Proof. reflexivity. Qed.
End Properties.

(** * Further properties of the inventory *)

(** ** Strings *)




Lemma prefix_nil (s : string) : String.prefix "" s = true.
Proof. destruct s; reflexivity. Qed.

Lemma prefix_spec (n h : string) :
  String.prefix n h = true <-> exists post, h = (n ++ post)%string.
Proof.
  revert h. induction n as [|c n IH]; intros h.
  - rewrite prefix_nil. split; [intros _; exists h; reflexivity | reflexivity].
  - destruct h as [|c' h]; simpl.
    + split; [discriminate | intros [post H]; discriminate H].
    + destruct (Ascii.ascii_dec c c') as [->|Hne].
      * rewrite IH. split; intros [post H]; exists post; [rewrite H; reflexivity|].
        injection H as H. exact H.
      * split; [discriminate | intros [post H]; congruence].
Qed.

(** The substring test finds [needle] exactly when [hay] is some
    string, then [needle], then some string. *)
Lemma str_in_spec (needle hay : string) :
  str_in needle hay = true <-> exists pre post, hay = (pre ++ needle ++ post)%string.
Proof.
  induction hay as [|c hay IH]; cbn [str_in]; rewrite orb_true_iff, prefix_spec.
  - split.
    + intros [[post H]|H]; [exists "", post; exact H | discriminate].
    + intros [pre [post H]]. left. destruct pre; [exists post; exact H | discriminate].
  - rewrite IH. split.
    + intros [[post H]|[pre [post H]]].
      * exists "", post. exact H.
      * exists (String c pre), post. simpl. rewrite H. reflexivity.
    + intros [pre [post H]]. destruct pre as [|c' pre]; simpl in H.
      * left. exists post. exact H.
      * right. injection H as _ H. exists pre, post. exact H.
Qed.

(** ** Searching *)

Section Searching.
Variable num : Type.
Implicit Types (p : Product num) (inv : Inventory num).

(** X1.  [search_by_name] returns, in the order of the inventory, the
    products of the inventory whose name in lower case has the query in
    lower case as a contiguous part, and no other. *)
Theorem search_by_name_spec (query : string) inv p :
  In p (search_by_name query inv) <->
  In p (list_all_products inv) /\
  exists pre post, lower (name p) = (pre ++ lower query ++ post)%string.
Proof.
  unfold search_by_name, list_all_products. rewrite filter_In, str_in_spec. reflexivity.
Qed.


Lemma lower_class_name p :
  lower (class_name p)
  = if isinstance_Electronics p then "electronics"
    else if isinstance_Grocery p then "grocery" else "clothing".
Proof. destruct p; reflexivity. Qed.

(** X3.  [search_by_type] compares class names without regard to case:
    a query that is ["electronics"], ["grocery"] or ["clothing"] in
    lower case returns the products of that class, in the order of the
    inventory, and any other query returns nothing. *)
Theorem search_by_type_spec (product_type : string) inv :
  search_by_type product_type inv
  = if (lower product_type =? "electronics")%string
    then filter (@isinstance_Electronics num) (list_all_products inv)
    else if (lower product_type =? "grocery")%string
    then filter (@isinstance_Grocery num) (list_all_products inv)
    else if (lower product_type =? "clothing")%string
    then filter (@isinstance_Clothing num) (list_all_products inv)
    else [].
Proof.
  unfold search_by_type, list_all_products.
  destruct (String.eqb_spec (lower product_type) "electronics") as [->|H1].
  { apply filter_ext. intros p. rewrite lower_class_name. destruct p; reflexivity. }
  destruct (String.eqb_spec (lower product_type) "grocery") as [->|H2].
  { apply filter_ext. intros p. rewrite lower_class_name. destruct p; reflexivity. }
  destruct (String.eqb_spec (lower product_type) "clothing") as [->|H3].
  { apply filter_ext. intros p. rewrite lower_class_name. destruct p; reflexivity. }
  assert (Hf : forall p, (lower (class_name p) =? lower product_type)%string = false).
  { intros p. apply String.eqb_neq. rewrite lower_class_name. destruct p; simpl; congruence. }
  induction (dict_values inv) as [|p l IH]; cbn [filter]; [reflexivity|].
  rewrite Hf. exact IH.
Qed.

(** X4.  The three searches by type share out the inventory: each
    product is returned by exactly one of them, so the three results
    have as many products together as the inventory. *)
Theorem search_by_type_partition inv :
  (List.length (search_by_type "Electronics" inv)
   + List.length (search_by_type "Grocery" inv)
   + List.length (search_by_type "Clothing" inv))%nat
  = List.length (list_all_products inv).
Proof.
  unfold search_by_type, list_all_products.
  induction (dict_values inv) as [|p l IH]; [reflexivity|].
  destruct p; simpl in *; lia.
Qed.
End Searching.

(** ** More on dictionaries *)

Section DictFacts2.
Variable V : Type.
Implicit Types (d : dict V) (k : string) (v : V).

Lemma dict_get_contains k v d : dict_get k d = Some v -> dict_contains k d = true.
Proof. unfold dict_contains. intros ->. reflexivity. Qed.

Lemma dict_set_set k v v' d : dict_set k v (dict_set k v' d) = dict_set k v d.
Proof.
  induction d as [|[k0 v0] d IH]; simpl.
  - rewrite String.eqb_refl. reflexivity.
  - destruct (k0 =? k)%string eqn:E; simpl; rewrite E; [reflexivity | rewrite IH; reflexivity].
Qed.

Lemma dict_keys_set k v d :
  dict_keys (dict_set k v d) = if dict_contains k d then dict_keys d else dict_keys d ++ [k].
Proof.
  destruct (dict_contains k d) eqn:E.
  - apply dict_keys_set_present. exact E.
  - rewrite dict_set_new by assumption. unfold dict_keys. rewrite map_app. reflexivity.
Qed.

Lemma dict_del_app_new k v d : dict_contains k d = false -> dict_del k (d ++ [(k, v)]) = d.
Proof.
  unfold dict_contains. induction d as [|[k0 v0] d IH]; simpl.
  - rewrite String.eqb_refl. reflexivity.
  - destruct (k0 =? k)%string; [discriminate|]. intros H. rewrite IH by assumption. reflexivity.
Qed.

Lemma dict_contains_app_new k v d : dict_contains k (d ++ [(k, v)]) = true.
Proof.
  apply dict_contains_In. unfold dict_keys. rewrite map_app. apply in_or_app.
  right. left. reflexivity.
Qed.
End DictFacts2.

(** ** Stock movements through the inventory *)

Section Stock.
Variable num : Type.
Context {NumOps : Numeric num}.
Implicit Types (p : Product num) (inv : Inventory num).

Lemma set_quantity_in_stock_same p : set_quantity_in_stock (quantity_in_stock p) p = p.
Proof. destruct p as [[? ? ? ?] ? ?|[? ? ? ?] ?|[? ? ? ?] ? ?]; reflexivity. Qed.

Lemma set_quantity_in_stock_twice (q q' : Z) p :
  set_quantity_in_stock q (set_quantity_in_stock q' p) = set_quantity_in_stock q p.
Proof. destruct p; reflexivity. Qed.

(** What a method call on the product under a key does to the
    dictionary, when the method leaves the product [p']. *)
Lemma on_product_lookup (pid : string) (method : action (Product num) unit) inv p k :
  dict_get pid inv = Some p ->
  dict_get k (snd (on_product pid method inv))
  = if (pid =? k)%string then Some (snd (method p)) else dict_get k inv.
Proof.
  intros Hget. unfold on_product. rewrite Hget.
  destruct (method p) as [r p']. cbn [snd]. apply dict_get_set.
Qed.

Lemma on_product_keys (pid : string) (method : action (Product num) unit) inv :
  dict_keys (snd (on_product pid method inv)) = dict_keys inv.
Proof.
  unfold on_product. destruct (dict_get pid inv) as [p|] eqn:Hget; [|reflexivity].
  destruct (method p) as [r p']. cbn [snd].
  apply dict_keys_set_present. exact (dict_get_contains _ _ _ _ Hget).
Qed.

(** X5.  Restocking a product that is in the inventory returns
    normally; afterwards the product has its old stock plus the amount
    and is otherwise the same, every other key holds what it held, and
    the keys and their order are the same. *)
Theorem restock_product_present (pid : string) (amount : Z) inv p :
  dict_get pid inv = Some p ->
  fst (restock_product pid amount inv) = Return tt /\
  dict_get pid (snd (restock_product pid amount inv))
  = Some (set_quantity_in_stock (quantity_in_stock p + amount) p) /\
  (forall k, k <> pid ->
     dict_get k (snd (restock_product pid amount inv)) = dict_get k inv) /\
  dict_keys (snd (restock_product pid amount inv)) = dict_keys inv.
Proof.
  intros Hget. unfold restock_product. rewrite (dict_get_contains _ _ _ _ Hget).
  split; [|split; [|split]].
  - unfold on_product, restock. rewrite Hget. reflexivity.
  - rewrite (on_product_lookup _ _ _ p _ Hget), String.eqb_refl. reflexivity.
  - intros k Hk. rewrite (on_product_lookup _ _ _ p _ Hget).
    destruct (String.eqb_spec pid k); [congruence | reflexivity].
  - apply on_product_keys.
Qed.

(** X6.  Selling, through the inventory, at most the stock of a
    product that is there returns normally; afterwards the product has
    its old stock less the quantity and is otherwise the same, every
    other key holds what it held, and the keys and their order are the
    same. *)
Theorem sell_product_present (pid : string) (quantity : Z) inv p :
  dict_get pid inv = Some p ->
  quantity <= quantity_in_stock p ->
  fst (sell_product pid quantity inv) = Return tt /\
  dict_get pid (snd (sell_product pid quantity inv))
  = Some (set_quantity_in_stock (quantity_in_stock p - quantity) p) /\
  (forall k, k <> pid ->
     dict_get k (snd (sell_product pid quantity inv)) = dict_get k inv) /\
  dict_keys (snd (sell_product pid quantity inv)) = dict_keys inv.
Proof.
  intros Hget Hq. unfold sell_product. rewrite (dict_get_contains _ _ _ _ Hget).
  assert (Hs : sell quantity p
               = (Return tt, set_quantity_in_stock (quantity_in_stock p - quantity) p)).
  { unfold sell. destruct (Z.gtb_spec quantity (quantity_in_stock p)); [lia | reflexivity]. }
  split; [|split; [|split]].
  - unfold on_product. rewrite Hget, Hs. reflexivity.
  - rewrite (on_product_lookup _ _ _ p _ Hget), String.eqb_refl, Hs. reflexivity.
  - intros k Hk. rewrite (on_product_lookup _ _ _ p _ Hget).
    destruct (String.eqb_spec pid k); [congruence | reflexivity].
  - apply on_product_keys.
Qed.

(** X7.  Selling a quantity that is in stock and restocking the same
    quantity gives back the inventory as it was. *)
Theorem sell_then_restock (pid : string) (quantity : Z) inv p :
  dict_get pid inv = Some p ->
  quantity <= quantity_in_stock p ->
  restock_product pid quantity (snd (sell_product pid quantity inv)) = (Return tt, inv).
Proof.
  intros Hget Hq.
  assert (Hs : sell_product pid quantity inv
               = (Return tt,
                  dict_set pid (set_quantity_in_stock (quantity_in_stock p - quantity) p) inv)).
  { unfold sell_product, on_product, sell. rewrite (dict_get_contains _ _ _ _ Hget), Hget.
    destruct (Z.gtb_spec quantity (quantity_in_stock p)); [lia | reflexivity]. }
  rewrite Hs. cbn [snd]. unfold restock_product, on_product, restock, dict_contains.
  rewrite dict_get_set, String.eqb_refl. f_equal.
  rewrite dict_set_set, quantity_in_stock_set, set_quantity_in_stock_twice.
  replace (quantity_in_stock p - quantity + quantity) with (quantity_in_stock p) by lia.
  rewrite set_quantity_in_stock_same. apply dict_set_same. exact Hget.
Qed.

(** X8.  [sell] does not check the sign of the quantity: selling a
    negative quantity of a product whose stock is not negative returns
    normally and leaves more in stock than before. *)
Theorem sell_negative_quantity (quantity : Z) p :
  quantity < 0 ->
  0 <= quantity_in_stock p ->
  fst (sell quantity p) = Return tt /\
  quantity_in_stock (snd (sell quantity p)) = quantity_in_stock p - quantity /\
  quantity_in_stock (snd (sell quantity p)) > quantity_in_stock p.
Proof.
  intros Hq Hp. unfold sell.
  destruct (Z.gtb_spec quantity (quantity_in_stock p)); [lia|].
  cbn [fst snd]. rewrite quantity_in_stock_set. repeat split; lia.
Qed.

(** X9.  [sell_product] and [restock_product] never add or remove a
    product: whatever the id and the quantity, and whether the call
    returns or raises, the keys of the inventory and their order are
    the same afterwards. *)
Theorem sell_restock_keep_keys (pid : string) (quantity : Z) inv :
  dict_keys (snd (sell_product pid quantity inv)) = dict_keys inv /\
  dict_keys (snd (restock_product pid quantity inv)) = dict_keys inv.
Proof.
  unfold sell_product, restock_product.
  destruct (dict_contains pid inv); split; try reflexivity; apply on_product_keys.
Qed.

(** X10.  In a dictionary, [remove_product] returns normally and
    removes the product under the id and nothing else: the id is no
    key afterwards, every other key holds what it held, and the pairs
    that remain keep their order. *)
Theorem remove_product_spec (pid : string) inv :
  unique_keys inv = true ->
  remove_product pid inv
  = (Return tt, filter (fun kv => negb (fst kv =? pid)%string) inv) /\
  dict_get pid (snd (remove_product pid inv)) = None /\
  (forall k, k <> pid -> dict_get k (snd (remove_product pid inv)) = dict_get k inv).
Proof.
  intros Hu.
  assert (Heq : remove_product pid inv
                = (Return tt, filter (fun kv => negb (fst kv =? pid)%string) inv)).
  { unfold remove_product. destruct (dict_contains pid inv) eqn:Hc.
    - rewrite dict_del_filter by assumption. reflexivity.
    - f_equal. symmetry. apply forallb_filter_id. apply forallb_forall.
      intros [k v] Hin. cbn [fst]. apply negb_true_iff. apply String.eqb_neq. intros ->.
      apply dict_contains_false in Hc. apply Hc. apply (in_map fst) in Hin. exact Hin. }
  rewrite Heq. cbn [snd]. split; [reflexivity|]. split.
  - rewrite dict_get_filter by assumption. cbn [fst]. rewrite String.eqb_refl.
    destruct (dict_get pid inv); reflexivity.
  - intros k Hk. rewrite dict_get_filter by assumption. cbn [fst].
    destruct (String.eqb_spec k pid); [congruence|].
    destruct (dict_get k inv); reflexivity.
Qed.

(** X11.  Removing a product that has just been added under a new id
    gives back the inventory as it was. *)
Theorem add_then_remove p inv :
  dict_contains (product_id p) inv = false ->
  remove_product (product_id p) (snd (add_product p inv)) = (Return tt, inv).
Proof.
  intros Hnew. rewrite (add_product_absent _ p inv Hnew). cbn [snd].
  unfold remove_product. rewrite dict_contains_app_new, dict_del_app_new by assumption.
  reflexivity.
Qed.

End Stock.

(** ** The total value *)

Section TotalValue.
Variable num : Type.
Context {NumOps : Numeric num}.
Implicit Types (p : Product num) (inv : Inventory num).

End TotalValue.

Lemma fold_left_add_shift (A : Type) (f : A -> Z) (l : list A) (a b : Z) :
  fold_left (fun acc x => acc + f x) l (a + b) = b + fold_left (fun acc x => acc + f x) l a.
Proof.
  revert a. induction l as [|x l IH]; intros a; cbn [fold_left]; [lia|].
  replace (a + b + f x) with (a + f x + b) by lia. apply IH.
Qed.

(** With integer prices the sum is exact and the order of the terms
    does not matter. *)
Lemma total_inventory_value_cons (k : string) (p : Product Z) (inv : Inventory Z) :
  total_inventory_value ((k, p) :: inv) = get_total_value p + total_inventory_value inv.
Proof.
  exact (fold_left_add_shift _ (@get_total_value Z Numeric_Z) (dict_values inv) 0
           (get_total_value p)).
Qed.

Lemma total_inventory_value_dict_set (k : string) (p p' : Product Z) (inv : Inventory Z) :
  dict_get k inv = Some p ->
  total_inventory_value (dict_set k p' inv)
  = total_inventory_value inv - get_total_value p + get_total_value p'.
Proof.
  induction inv as [|[k0 p0] inv IH]; cbn [dict_get dict_set dict_del]; [discriminate|].
  destruct (k0 =? k)%string.
  - intros [= ->]. rewrite !total_inventory_value_cons. lia.
  - intros H. rewrite !total_inventory_value_cons, IH by assumption. lia.
Qed.

Lemma total_inventory_value_dict_del (k : string) (p : Product Z) (inv : Inventory Z) :
  dict_get k inv = Some p ->
  total_inventory_value (dict_del k inv) = total_inventory_value inv - get_total_value p.
Proof.
  induction inv as [|[k0 p0] inv IH]; cbn [dict_get dict_set dict_del]; [discriminate|].
  destruct (k0 =? k)%string.
  - intros [= ->]. rewrite !total_inventory_value_cons. lia.
  - intros H. rewrite !total_inventory_value_cons, IH by assumption. lia.
Qed.

(** X14.  With integer prices, the total value follows the stock: for a
    product of the inventory, a sale of a quantity in stock takes price
    times quantity off the total, a restock adds price times amount,
    and removing the product takes off price times its stock. *)
Theorem total_inventory_value_moves (pid : string) (q : Z) (p : Product Z) (inv : Inventory Z) :
  dict_get pid inv = Some p ->
  (q <= quantity_in_stock p ->
   total_inventory_value (snd (sell_product pid q inv))
   = total_inventory_value inv - price p * q) /\
  total_inventory_value (snd (restock_product pid q inv))
  = total_inventory_value inv + price p * q /\
  total_inventory_value (snd (remove_product pid inv))
  = total_inventory_value inv - price p * quantity_in_stock p.
Proof.
  intros Hget. pose proof (dict_get_contains _ _ _ _ Hget) as Hc. split; [|split].
  - intros Hq. unfold sell_product, on_product, sell. rewrite Hc, Hget.
    destruct (Z.gtb_spec q (quantity_in_stock p)); [lia|]. cbn [snd].
    rewrite (total_inventory_value_dict_set _ _ _ _ Hget). unfold get_total_value.
    rewrite quantity_in_stock_set, price_set. simpl. lia.
  - unfold restock_product, on_product, restock. rewrite Hc, Hget. cbn [snd].
    rewrite (total_inventory_value_dict_set _ _ _ _ Hget). unfold get_total_value.
    rewrite quantity_in_stock_set, price_set. simpl. lia.
  - unfold remove_product. rewrite Hc. cbn [snd].
    rewrite (total_inventory_value_dict_del _ _ _ Hget). reflexivity.
Qed.

(** ** More on loading and on the expiry sweep *)

Section Loading.
Variable num : Type.
Context {NumOps : Numeric num}.
Implicit Types (p : Product num) (inv : Inventory num) (item : record num).

(** X15.  The key ["type"] is read outside the [try]: when the loop
    reaches a record without it, [load_from_file] raises the bare
    [KeyError], which is no [InventoryError], and leaves the products of
    the records before it. *)
Theorem load_missing_type (filename : string) (fs : filesystem num)
    (before loaded : Inventory num) (pre post : list (record num)) item :
  fs filename = Some (pre ++ item :: post) ->
  for_each pre (@load_item num) [] = (Return tt, loaded) ->
  r_type item = None ->
  load_from_file filename fs before = (Raise (KeyError "type"), loaded) /\
  is_InventoryError (KeyError "type") = false.
Proof.
  intros Hfile Hpre Hty. split; [|reflexivity].
  pose proof (load_item_cases _ item loaded) as Hc. rewrite Hty in Hc.
  eapply load_from_file_first_raise; try eassumption. rewrite Hc. reflexivity.
Qed.

(** X16.  An id that occurs twice in a file stops the load: when the
    loop reaches a record from which a product can be reconstructed and
    the id of that product is already a key, [load_from_file] raises
    [DuplicateProductError] and keeps the product loaded first. *)
Theorem load_duplicate_id (filename : string) (fs : filesystem num)
    (before loaded : Inventory num) (pre post : list (record num)) item p :
  fs filename = Some (pre ++ item :: post) ->
  for_each pre (@load_item num) [] = (Return tt, loaded) ->
  reconstructs item p ->
  dict_contains (product_id p) loaded = true ->
  load_from_file filename fs before = (Raise DuplicateProductError, loaded).
Proof.
  intros Hfile Hpre [t [Hty Hb]] Hdup.
  pose proof (load_item_cases _ item loaded) as Hc. rewrite Hty, Hb in Hc.
  eapply load_from_file_first_raise; try eassumption.
  rewrite Hc, (add_product_present _ p loaded Hdup). reflexivity.
Qed.

Lemma for_each_load_item_all (data : list (record num)) (products : list (Product num)) inv :
  Forall2 (@reconstructs num) data products ->
  NoDup (dict_keys inv ++ map (@product_id num) products) ->
  for_each data (@load_item num) inv
  = (Return tt, inv ++ map (fun p => (product_id p, p)) products).
Proof.
  intros Hall. revert inv. induction Hall as [|item p data products [t [Hty Hb]] _ IH];
    intros inv Hnd; simpl.
  - rewrite app_nil_r. reflexivity.
  - assert (Hnew : dict_contains (product_id p) inv = false).
    { apply dict_contains_false. intros Hin. apply NoDup_remove_2 in Hnd.
      apply Hnd. apply in_or_app. left. exact Hin. }
    pose proof (load_item_cases _ item inv) as Hc. rewrite Hty, Hb in Hc.
    unfold abind. rewrite Hc, (add_product_absent _ p inv Hnew).
    rewrite IH.
    + rewrite <- app_assoc. reflexivity.
    + unfold dict_keys in *. rewrite map_app, <- app_assoc. exact Hnd.
Qed.

(** X17.  When a product can be reconstructed from every record of the
    file and no two of these products have the same id,
    [load_from_file] returns normally and the inventory holds exactly
    these products, each under its id, in the order of the file. *)
Theorem load_from_file_all (filename : string) (fs : filesystem num)
    (before : Inventory num) (data : list (record num)) (products : list (Product num)) :
  fs filename = Some data ->
  Forall2 (@reconstructs num) data products ->
  NoDup (map (@product_id num) products) ->
  load_from_file filename fs before
  = (Return tt, map (fun p => (product_id p, p)) products).
Proof.
  intros Hfile Hall Hnd. unfold load_from_file. rewrite Hfile.
  apply (for_each_load_item_all data products [] Hall). exact Hnd.
Qed.

(** X21.  [Grocery.__init__] makes a grocery only with an expiry date
    of the calendar, the one its string parses to, and raises nothing
    but [ValueError]. *)
Theorem new_Grocery_outcome (product_id name : string) (price : num) (quantity : Z)
    (expiry_date : string) :
  match new_Grocery product_id name price quantity expiry_date with
  | Return p =>
      exists d, strptime expiry_date = Return d /\ valid_date d = true /\
                p = Grocery (mkBase product_id name price quantity) d
  | Raise e => e = ValueError
  end.
Proof.
  unfold new_Grocery.
  destruct (strptime_outcome expiry_date) as [(d & Hd & Hv) | Hd]; rewrite Hd; cbn.
  - exists d. auto.
  - reflexivity.
Qed.

Lemma remove_expired_products_filter (today : date) inv :
  unique_keys inv = true ->
  remove_expired_products today inv
  = (Return tt, filter (fun kv => negb (expired_grocery today (snd kv))) inv).
Proof.
  intros Hu. unfold remove_expired_products. f_equal.
  rewrite fold_dict_del_filter by assumption.
  apply filter_ext_in. intros [k p] Hin. cbn [fst snd]. f_equal.
  rewrite <- (expired_grocery_isinstance _ today p).
  apply eq_true_iff_eq. rewrite existsb_exists. split.
  - intros [k' [Hk' Heqb]]. apply String.eqb_eq in Heqb. subst k'.
    apply in_map_iff in Hk' as [[k1 p1] [Hk1 Hf]]. cbn [fst] in Hk1. subst k1.
    apply filter_In in Hf as [Hin1 Hp1]. cbn [snd] in Hp1.
    rewrite (unique_keys_In_eq _ _ _ _ _ Hu Hin Hin1). exact Hp1.
  - intros He. exists k. split; [|apply String.eqb_refl].
    apply in_map_iff. exists (k, p). split; [reflexivity|].
    apply filter_In. split; [exact Hin | exact He].
Qed.

(** X18.  After the expiry sweep no expired grocery is left, and a
    second sweep on the same day removes nothing. *)
Theorem remove_expired_products_idempotent (today : date) inv :
  unique_keys inv = true ->
  forallb (fun kv => negb (expired_grocery today (snd kv)))
          (snd (remove_expired_products today inv)) = true /\
  remove_expired_products today (snd (remove_expired_products today inv))
  = (Return tt, snd (remove_expired_products today inv)).
Proof.
  intros Hu. rewrite (remove_expired_products_filter today inv Hu). cbn [snd].
  assert (Hall : forallb (fun kv : string * Product num => negb (expired_grocery today (snd kv)))
                   (filter (fun kv => negb (expired_grocery today (snd kv))) inv) = true).
  { apply forallb_forall. intros kv Hin. apply filter_In in Hin as [_ H]. exact H. }
  split; [exact Hall|].
  rewrite remove_expired_products_filter by (apply unique_keys_filter; exact Hu).
  f_equal. apply forallb_filter_id. exact Hall.
Qed.

Lemma date_lt_le_trans (a b c : date) :
  date_lt a b = true -> date_le b c = true -> date_lt a c = true.
Proof.
  unfold date_le, date_lt.
  rewrite negb_true_iff, !orb_true_iff, !orb_false_iff, !andb_true_iff, !andb_false_iff,
    !orb_true_iff, !orb_false_iff, !andb_true_iff, !andb_false_iff,
    !Z.ltb_lt, !Z.ltb_ge, !Z.eqb_eq, !Z.eqb_neq.
  lia.
Qed.

(** X19.  What a sweep removes, a sweep on the same or a later day
    removes too: sweeping on one day and again on a day not before it
    leaves the inventory that the second sweep alone leaves. *)
Theorem remove_expired_products_later (today later : date) inv :
  unique_keys inv = true ->
  date_le today later = true ->
  remove_expired_products later (snd (remove_expired_products today inv))
  = remove_expired_products later inv.
Proof.
  intros Hu Hle. rewrite (remove_expired_products_filter today inv Hu). cbn [snd].
  rewrite remove_expired_products_filter by (apply unique_keys_filter; exact Hu).
  rewrite (remove_expired_products_filter later inv Hu). f_equal.
  clear Hu. induction inv as [|[k p] inv IH]; simpl; [reflexivity|].
  destruct (expired_grocery today p) eqn:Ht; simpl.
  - assert (Hl : expired_grocery later p = true).
    { destruct p as [b w br|b e|b s m]; try discriminate. simpl in *.
      unfold is_expired, date_gt in *. exact (date_lt_le_trans _ _ _ Ht Hle). }
    rewrite Hl. simpl. exact IH.
  - destruct (expired_grocery later p); simpl; rewrite IH; reflexivity.
Qed.
(** X22.  Saving what was loaded is stable: the record [to_dict] writes
    for a product that the loader reconstructed from some record, with
    the date in whatever form the format accepts, is a record from
    which the loader reconstructs the same product. *)
Theorem to_dict_reconstructs item p :
  reconstructs item p -> reconstructs (to_dict p) p.
Proof.
  intros [t [_ Hb]]. exists (class_name p). split.
  - destruct p; reflexivity.
  - apply build_product_to_dict. exact (build_product_ok _ _ _ _ Hb).
Qed.
End Loading.

(** ** The invariant of a session *)

Section Sessions.
Variable num : Type.
Context {NumOps : Numeric num}.

(** X20.  Whatever calls a session makes on an inventory that starts
    empty, with any files, the ids stay unique, every product is stored
    under its own id, and every grocery has an expiry date of the
    calendar; of the products added it is only asked that they are
    objects the constructors can make. *)
Theorem session_invariant (cs : list (call num)) (fs : filesystem num) :
  forallb (@call_ok num) cs = true ->
  let inv := snd (run_calls cs (fs, new_Inventory num)) in
  NoDup (dict_keys inv) /\
  forall k p, dict_get k inv = Some p -> product_id p = k /\ product_ok p = true.
Proof.
  intros Hcs inv.
  pose proof (wf_inventory_run_calls num cs fs (new_Inventory num) (wf_inventory_new num) Hcs)
    as Hwf.
  fold inv in Hwf. unfold wf_inventory in Hwf. apply andb_true_iff in Hwf as [Hu Hall].
  split; [apply unique_keys_NoDup; exact Hu|].
  intros k p Hget. apply dict_get_In in Hget.
  rewrite forallb_forall in Hall. apply Hall in Hget. cbn [fst snd] in Hget.
  apply andb_true_iff in Hget as [Hk Hok]. apply String.eqb_eq in Hk. auto.
Qed.
End Sessions.

(** * The statements at work on sample data *)

Module Instances.
Import Samples.

Example strptime_padded : strptime "2024-02-29" = Return (mkdate 2024 2 29).
Proof. reflexivity. Qed.

Example strptime_unpadded : strptime "2024-1-5" = Return (mkdate 2024 1 5).
Proof. reflexivity. Qed.

Example strptime_no_such_day : strptime "2023-02-29" = Raise ValueError.
Proof. reflexivity. Qed.

Example strptime_month_13 : strptime "2024-13-01" = Raise ValueError.
Proof. reflexivity. Qed.

Example strptime_trailing : strptime "2024-01-311" = Raise ValueError.
Proof. reflexivity. Qed.

Example strptime_year_0 : strptime "0000-01-01" = Raise ValueError.
Proof. reflexivity. Qed.

Example isoformat_pads : isoformat (mkdate 987 3 7) = "0987-03-07".
Proof. reflexivity. Qed.

(** The examples of the specification: a value of 500 that a sale of
    2 brings to 300, and a sweep that removes the grocery of the year
    2000 and keeps the electronics. *)
Example total_value_example :
  total_inventory_value [("E1", phone)] = 500 /\
  total_inventory_value (snd (sell_product "E1" 2 [("E1", phone)])) = 300.
Proof. split; reflexivity. Qed.

Example remove_expired_example :
  let inv' := snd (remove_expired_products today [("G1", milk); ("E1", phone)]) in
  dict_contains "G1" inv' = false /\ dict_get "E1" inv' = Some phone.
Proof. split; reflexivity. Qed.

Lemma save_load_roundtrip_witness :
  wf_inventory shop = true /\
  load_from_file "inv.json" (snd (save_to_file "inv.json" shop no_files)) [("E1", phone)]
  = (Return tt, shop).
Proof.
  split; [reflexivity|].
  apply (save_load_roundtrip Z "inv.json" no_files shop [("E1", phone)]). reflexivity.
Defined.

Lemma stock_nonneg_run_calls_witness :
  stock_nonneg shop = true /\
  forallb (@call_nonneg Z) session = true /\
  stock_nonneg (snd (run_calls session (no_files, shop))) = true.
Proof.
  split; [reflexivity|]. split; [reflexivity|].
  apply (stock_nonneg_run_calls Z session no_files shop).
  - intros f data H. discriminate H.
  - reflexivity.
  - reflexivity.
Defined.

(** C2 as stated fails: with stock 0, restocking by -1 returns
    normally and leaves the stock at -1. *)
Lemma restock_negative_amount :
  stock_nonneg shop = true /\
  run_call (RestockProduct "C1" (-1)) (no_files, shop)
  = (Return tt, (no_files, dict_set "C1" (set_quantity_in_stock (-1) shirt) shop)) /\
  option_map (@quantity_in_stock Z)
    (dict_get "C1" (snd (run_calls [RestockProduct "C1" (-1)] (no_files, shop))))
  = Some (-1) /\
  stock_nonneg (snd (run_calls [RestockProduct "C1" (-1)] (no_files, shop))) = false.
Proof. repeat split; reflexivity. Qed.

Lemma sell_out_of_stock_witness :
  6 > quantity_in_stock phone /\
  sell 6 phone = (Raise (OutOfStockError 5), phone) /\
  sell_product "E1" 6 shop = (Raise (OutOfStockError 5), shop).
Proof.
  assert (H : 6 > quantity_in_stock phone) by reflexivity.
  split; [exact H|].
  destruct (sell_out_of_stock Z phone 6 H) as [H1 H2].
  split; [exact H1|]. apply (H2 shop "E1"). reflexivity.
Defined.

Lemma sell_in_stock_witness :
  2 <= quantity_in_stock phone /\
  quantity_in_stock (snd (sell 2 phone)) = 3 /\
  get_total_value (snd (sell 2 phone)) = 300.
Proof.
  assert (H : 2 <= quantity_in_stock phone) by (vm_compute; discriminate).
  split; [exact H|].
  destruct (sell_in_stock Z phone 2 H) as (_ & H1 & _ & H2).
  split; [exact H1 | exact H2].
Defined.

Lemma add_product_spec_witness :
  add_product phone shop = (Raise DuplicateProductError, shop) /\
  add_product shirt [("E1", phone)] = (Return tt, [("E1", phone); ("C1", shirt)]).
Proof.
  split.
  - apply (proj1 (add_product_spec Z phone shop)). reflexivity.
  - apply (proj2 (add_product_spec Z shirt [("E1", phone)])). reflexivity.
Defined.

Lemma missing_id_noop_witness :
  dict_contains "ZZ" shop = false /\
  remove_product "ZZ" shop = (Return tt, shop) /\
  sell_product "ZZ" 3 shop = (Return tt, shop) /\
  restock_product "ZZ" 3 shop = (Return tt, shop).
Proof.
  split; [reflexivity|]. apply (missing_id_noop Z "ZZ" 3 shop). reflexivity.
Defined.

(** The rice expires today: it is not yet expired and stays. *)
Lemma remove_expired_products_spec_witness :
  unique_keys shop = true /\
  remove_expired_products today shop
  = (Return tt, [("E1", phone); ("G2", rice); ("C1", shirt)]).
Proof.
  split; [reflexivity|].
  apply (proj1 (remove_expired_products_spec Z today shop eq_refl)).
Defined.

Lemma load_not_atomic_witness :
  load_from_file "inv.json" (one_file [to_dict phone; to_dict milk; toy; to_dict shirt]) shop
  = (Raise (InvalidProductDataError (UnknownType "Toy")), [("E1", phone); ("G1", milk)]).
Proof.
  apply (load_not_atomic Z "inv.json"
           (one_file [to_dict phone; to_dict milk; toy; to_dict shirt])
           shop [("E1", phone); ("G1", milk)]
           [to_dict phone; to_dict milk] [to_dict shirt] toy
           (InvalidProductDataError (UnknownType "Toy")));
    reflexivity.
Defined.

Lemma load_invalid_record_witness :
  (exists why,
     load_from_file "inv.json" (one_file [to_dict phone; toy]) shop
     = (Raise (InvalidProductDataError why), [("E1", phone)])) /\
  (exists why,
     load_from_file "inv.json" (one_file [to_dict phone; phone_no_brand]) shop
     = (Raise (InvalidProductDataError why), [("E1", phone)])).
Proof.
  split.
  - apply (load_invalid_record Z "inv.json" (one_file [to_dict phone; toy]) shop
             [("E1", phone)] [to_dict phone] [] toy "Toy");
      try reflexivity.
    left. reflexivity.
  - apply (load_invalid_record Z "inv.json" (one_file [to_dict phone; phone_no_brand]) shop
             [("E1", phone)] [to_dict phone] [] phone_no_brand "Electronics");
      try reflexivity.
    right. split; reflexivity.
Defined.

(** C4 as stated fails: the file holds a record of the unknown type
    ["Toy"], but its second record repeats the id of the first, and
    [load_from_file] raises [DuplicateProductError]. *)
Lemma load_duplicate_before_unknown_type :
  let data := [to_dict phone; to_dict phone; toy] in
  In toy data /\ r_type toy = Some "Toy" /\ known_type "Toy" = false /\
  load_from_file "inv.json" (one_file data) shop
  = (Raise DuplicateProductError, [("E1", phone)]) /\
  is_InvalidProductDataError DuplicateProductError = false.
Proof. cbv zeta. repeat split; try reflexivity. right. right. left. reflexivity. Qed.

Lemma load_bad_expiry_date_witness :
  load_from_file "inv.json" (one_file [to_dict phone; bad_date; to_dict shirt]) shop
  = (Raise ValueError, [("E1", phone)]).
Proof.
  apply (load_bad_expiry_date Z "inv.json"
           (one_file [to_dict phone; bad_date; to_dict shirt]) shop
           [("E1", phone)] [to_dict phone] [to_dict shirt] bad_date "2024-13-01");
    try reflexivity.
  intros d H. vm_compute in H. discriminate H.
Defined.

(** C10 as stated fails, in two ways.  A grocery record with a date
    of month 13 that also lacks its name makes [load_from_file] raise
    [InvalidProductDataError]; and so does a file in which a record of
    unknown type stands before the grocery record. *)
Lemma load_bad_date_reported_invalid :
  r_type bad_date_no_name = Some "Grocery" /\
  r_expiry_date bad_date_no_name = Some "2024-13-01" /\
  strptime "2024-13-01" = Raise ValueError /\
  load_from_file "inv.json" (one_file [bad_date_no_name]) shop
  = (Raise (InvalidProductDataError MissingFields), []) /\
  load_from_file "inv.json" (one_file [toy; bad_date]) shop
  = (Raise (InvalidProductDataError (UnknownType "Toy")), []) /\
  is_InventoryError (InvalidProductDataError MissingFields) = true.
Proof. repeat split; reflexivity. Qed.

Example search_by_name_examples :
  search_by_name "PHO" shop = [phone] /\ search_by_name "i" shop = [milk; rice; shirt] /\
  search_by_type "GROCERY" shop = [milk; rice] /\ search_by_type "Toy" shop = [].
Proof. repeat split; reflexivity. Qed.


Lemma restock_product_present_witness :
  dict_get "G2" shop = Some rice /\
  dict_get "G2" (snd (restock_product "G2" 5 shop)) = Some (set_quantity_in_stock 12 rice).
Proof.
  assert (H : dict_get "G2" shop = Some rice) by reflexivity.
  split; [exact H|].
  exact (proj1 (proj2 (restock_product_present Z "G2" 5 shop rice H))).
Defined.

Lemma sell_product_present_witness :
  dict_get "G2" shop = Some rice /\ 7 <= quantity_in_stock rice /\
  dict_get "G2" (snd (sell_product "G2" 7 shop)) = Some (set_quantity_in_stock 0 rice).
Proof.
  assert (H : dict_get "G2" shop = Some rice) by reflexivity.
  assert (Hq : 7 <= quantity_in_stock rice) by (vm_compute; discriminate).
  split; [exact H|]. split; [exact Hq|].
  exact (proj1 (proj2 (sell_product_present Z "G2" 7 shop rice H Hq))).
Defined.

Lemma sell_then_restock_witness :
  dict_get "E1" shop = Some phone /\ 5 <= quantity_in_stock phone /\
  restock_product "E1" 5 (snd (sell_product "E1" 5 shop)) = (Return tt, shop).
Proof.
  assert (H : dict_get "E1" shop = Some phone) by reflexivity.
  assert (Hq : 5 <= quantity_in_stock phone) by (vm_compute; discriminate).
  split; [exact H|]. split; [exact Hq|].
  exact (sell_then_restock Z "E1" 5 shop phone H Hq).
Defined.

Lemma sell_negative_quantity_witness :
  -3 < 0 /\ 0 <= quantity_in_stock shirt /\
  fst (sell (-3) shirt) = Return tt /\ quantity_in_stock (snd (sell (-3) shirt)) = 3.
Proof.
  assert (H1 : -3 < 0) by reflexivity.
  assert (H2 : 0 <= quantity_in_stock shirt) by (vm_compute; discriminate).
  split; [exact H1|]. split; [exact H2|].
  destruct (sell_negative_quantity Z (-3) shirt H1 H2) as (Ha & Hb & _).
  split; [exact Ha | exact Hb].
Defined.

Lemma remove_product_spec_witness :
  unique_keys shop = true /\
  remove_product "G1" shop = (Return tt, [("E1", phone); ("G2", rice); ("C1", shirt)]).
Proof.
  split; [reflexivity|].
  exact (proj1 (remove_product_spec Z "G1" shop eq_refl)).
Defined.

Lemma add_then_remove_witness :
  dict_contains (product_id shirt) [("E1", phone)] = false /\
  remove_product "C1" (snd (add_product shirt [("E1", phone)])) = (Return tt, [("E1", phone)]).
Proof.
  split; [reflexivity|].
  exact (add_then_remove Z shirt [("E1", phone)] eq_refl).
Defined.



Lemma total_inventory_value_moves_witness :
  dict_get "E1" shop = Some phone /\
  total_inventory_value shop = 558 /\
  total_inventory_value (snd (sell_product "E1" 2 shop)) = 558 - 100 * 2 /\
  total_inventory_value (snd (restock_product "E1" 2 shop)) = 558 + 100 * 2 /\
  total_inventory_value (snd (remove_product "E1" shop)) = 558 - 100 * 5.
Proof.
  assert (H : dict_get "E1" shop = Some phone) by reflexivity.
  split; [exact H|]. split; [reflexivity|].
  destruct (total_inventory_value_moves "E1" 2 phone shop H) as (Hs & Hr & Hd).
  split; [apply Hs; vm_compute; discriminate|]. split; [exact Hr | exact Hd].
Defined.

(** A record with no type at all. *)
Lemma load_missing_type_witness :
  let untyped := mkRecord None (Some "T1") (Some "Robot") (Some 15) (Some 1)
                          None None None None None in
  load_from_file "inv.json" (one_file [to_dict phone; untyped; to_dict shirt]) shop
  = (Raise (KeyError "type"), [("E1", phone)]).
Proof.
  intros untyped.
  apply (load_missing_type Z "inv.json" (one_file [to_dict phone; untyped; to_dict shirt])
           shop [("E1", phone)] [to_dict phone] [to_dict shirt] untyped);
    reflexivity.
Defined.

Lemma load_duplicate_id_witness :
  load_from_file "inv.json" (one_file [to_dict phone; to_dict milk; to_dict phone]) []
  = (Raise DuplicateProductError, [("E1", phone); ("G1", milk)]).
Proof.
  apply (load_duplicate_id Z "inv.json"
           (one_file [to_dict phone; to_dict milk; to_dict phone]) []
           [("E1", phone); ("G1", milk)] [to_dict phone; to_dict milk] [] (to_dict phone) phone);
    try reflexivity.
  exists "Electronics". split; reflexivity.
Defined.

Lemma load_from_file_all_witness :
  load_from_file "inv.json" (one_file [to_dict shirt; to_dict milk]) shop
  = (Return tt, [("C1", shirt); ("G1", milk)]).
Proof.
  apply (load_from_file_all Z "inv.json" (one_file [to_dict shirt; to_dict milk]) shop
           [to_dict shirt; to_dict milk] [shirt; milk]).
  - reflexivity.
  - repeat constructor.
    + exists "Clothing". split; reflexivity.
    + exists "Grocery". split; reflexivity.
  - repeat constructor; simpl; intuition discriminate.
Defined.

Lemma remove_expired_products_idempotent_witness :
  unique_keys shop = true /\
  remove_expired_products today (snd (remove_expired_products today shop))
  = (Return tt, [("E1", phone); ("G2", rice); ("C1", shirt)]).
Proof.
  split; [reflexivity|].
  exact (proj2 (remove_expired_products_idempotent Z today shop eq_refl)).
Defined.

Lemma remove_expired_products_later_witness :
  unique_keys shop = true /\ date_le today (mkdate 2024 6 16) = true /\
  remove_expired_products (mkdate 2024 6 16) (snd (remove_expired_products today shop))
  = (Return tt, [("E1", phone); ("C1", shirt)]).
Proof.
  split; [reflexivity|]. split; [reflexivity|].
  exact (remove_expired_products_later Z today (mkdate 2024 6 16) shop eq_refl eq_refl).
Defined.

(** A grocery record with its date unpadded. *)
Lemma to_dict_reconstructs_witness :
  let eggs := mkRecord (Some "Grocery") (Some "G3") (Some "Eggs") (Some 2) (Some 12)
                       None None (Some "2024-7-1") None None in
  let product := Grocery (mkBase "G3" "Eggs" 2 12) (mkdate 2024 7 1) in
  reconstructs eggs product /\
  r_expiry_date (to_dict product) = Some "2024-07-01" /\
  reconstructs (to_dict product) product.
Proof.
  intros eggs product.
  assert (H : reconstructs eggs product) by (exists "Grocery"; split; reflexivity).
  split; [exact H|]. split; [reflexivity|].
  exact (to_dict_reconstructs Z eggs product H).
Defined.

Lemma session_invariant_witness :
  forallb (@call_ok Z) session = true /\
  NoDup (dict_keys (snd (run_calls session (no_files, new_Inventory Z)))).
Proof.
  split; [reflexivity|].
  exact (proj1 (session_invariant Z session no_files eq_refl)).
Defined.
End Instances.
